(** * node-easyocr: the Python-environment provisioning script

    A shallow embedding of [setup-python-env.js].  The script is glue code
    around the Node runtime: it asks the shell for an interpreter
    ([execSync]), spawns child processes ([spawn]), writes and unlinks one
    temporary file ([fs]) and talks to the console.  The runtime is a
    parameter of the model (a [Host]); everything the script itself does is
    a definition below, written in a small monad that threads the disk and
    the list of effects and that knows JavaScript's three ways of leaving a
    block: returning, throwing, and not coming back at all. *)

From Stdlib Require Import String Ascii List ZArith Bool Lia.
From stdpp Require Import base option gmap strings pretty.
Import ListNotations.

Local Open Scope string_scope.
Local Open Scope list_scope.

(** ** JavaScript strings *)

Module Js.

(** [String.prototype.trim] strips white space and line terminators from
    both ends.  Strings are byte strings here, so this is the ASCII part
    of the white-space class: TAB, LF, VT, FF, CR and SPACE. *)
Definition is_white (c : ascii) : bool :=
  let n := nat_of_ascii c in
  ((9 <=? n)%nat && (n <=? 13)%nat) || (n =? 32)%nat.

Fixpoint trimStart (s : string) : string :=
  match s with
  | String c s' => if is_white c then trimStart s' else s
  | EmptyString => EmptyString
  end.

(** Drops the trailing white space: a character is kept when it is not
    white or when something is kept after it. *)
Fixpoint trimEnd (s : string) : string :=
  match s with
  | String c s' =>
      match trimEnd s' with
      | EmptyString => if is_white c then EmptyString else String c EmptyString
      | t => String c t
      end
  | EmptyString => EmptyString
  end.

Definition trim (s : string) : string := trimEnd (trimStart s).

(** [s.split(sep)] for a one-character separator: never the empty list. *)
Fixpoint split_on (is_sep : ascii -> bool) (s : string) : list string :=
  match s with
  | EmptyString => [EmptyString]
  | String c s' =>
      if is_sep c then EmptyString :: split_on is_sep s'
      else match split_on is_sep s' with
           | w :: ws => String c w :: ws
           | [] => [String c EmptyString]
           end
  end.

Definition newline : ascii := ascii_of_nat 10.

(** [s.split('\n')[0]] *)
Definition first_line (s : string) : string :=
  hd EmptyString (split_on (Ascii.eqb newline) s).

Definition is_empty (s : string) : bool :=
  match s with EmptyString => true | _ => false end.

(** [parts.join(sep)] *)
Fixpoint join (sep : string) (parts : list string) : string :=
  match parts with
  | [] => EmptyString
  | [p] => p
  | p :: ps => p ++ sep ++ join sep ps
  end.

End Js.

(** ** Node's [path] module

    [path.join] glues its non-empty arguments with the platform separator
    and normalizes the result: empty and [.] segments go, [..] pops a
    segment (or stays, in a relative path, when there is nothing to pop), a
    trailing separator is kept.  On Windows both slashes separate, the
    result uses backslashes and a drive prefix stays in front; UNC and
    device paths are outside this model. *)

Inductive Platform := Posix | Win32.

Module Path.

Definition is_sep (p : Platform) (c : ascii) : bool :=
  match p with
  | Posix => Ascii.eqb c "/"
  | Win32 => Ascii.eqb c "/" || Ascii.eqb c "\"
  end.

Definition sep (p : Platform) : string :=
  match p with Posix => "/" | Win32 => "\" end.

Definition is_letter (c : ascii) : bool :=
  let n := nat_of_ascii c in
  ((65 <=? n)%nat && (n <=? 90)%nat) || ((97 <=? n)%nat && (n <=? 122)%nat).

(** The drive prefix of a Windows path and what follows it. *)
Definition split_device (p : Platform) (s : string) : string * string :=
  match p, s with
  | Win32, String c (String c' rest) =>
      if is_letter c && Ascii.eqb c' ":"
      then (String c (String c' EmptyString), rest)
      else (EmptyString, s)
  | _, _ => (EmptyString, s)
  end.

Definition starts_with_sep (p : Platform) (s : string) : bool :=
  match s with String c _ => is_sep p c | EmptyString => false end.

Fixpoint ends_with_sep (p : Platform) (s : string) : bool :=
  match s with
  | EmptyString => false
  | String c EmptyString => is_sep p c
  | String _ s' => ends_with_sep p s'
  end.

(** One step of [normalizeString]: [acc] is the stack of kept segments,
    last one first. *)
Definition push_segment (above_root : bool) (acc : list string) (seg : string)
  : list string :=
  if Js.is_empty seg || String.eqb seg "." then acc
  else if String.eqb seg ".." then
    match acc with
    | top :: rest =>
        if String.eqb top ".." then seg :: acc else rest
    | [] => if above_root then [seg] else []
    end
  else seg :: acc.

Definition normalize_segments (above_root : bool) (segs : list string)
  : list string :=
  rev (fold_left (push_segment above_root) segs []).

Definition normalize (p : Platform) (s : string) : string :=
  if Js.is_empty s then "." else
  let '(device, tail) := split_device p s in
  let absolute := starts_with_sep p tail in
  let trailing := ends_with_sep p tail in
  let body :=
    Js.join (sep p)
      (normalize_segments (negb absolute) (Js.split_on (is_sep p) tail)) in
  if Js.is_empty body then
    if absolute then device ++ sep p
    else device ++ "." ++ (if trailing then sep p else EmptyString)
  else
    device ++ (if absolute then sep p else EmptyString) ++ body
           ++ (if trailing then sep p else EmptyString).

Definition join (p : Platform) (parts : list string) : string :=
  match List.filter (fun s => negb (Js.is_empty s)) parts with
  | [] => "."
  | ps => normalize p (Js.join (sep p) ps)
  end.

(** The non-empty segments of a path. *)
Definition components (p : Platform) (s : string) : list string :=
  List.filter (fun seg => negb (Js.is_empty seg))
         (Js.split_on (is_sep p) (snd (split_device p s))).

Fixpoint is_prefix (xs ys : list string) : bool :=
  match xs, ys with
  | [], _ => true
  | x :: xs', y :: ys' => String.eqb x y && is_prefix xs' ys'
  | _ :: _, [] => false
  end.

(** [target] lies strictly below the directory [dir]: same drive, both
    rooted or both not, and the components of [dir] are a proper prefix of
    those of [target]. *)
Definition is_under (p : Platform) (dir target : string) : bool :=
  String.eqb (fst (split_device p dir)) (fst (split_device p target))
  && Bool.eqb (starts_with_sep p (snd (split_device p dir)))
              (starts_with_sep p (snd (split_device p target)))
  && is_prefix (components p dir) (components p target)
  && (length (components p dir) <? length (components p target))%nat.

(** [target] is an entry of the directory [dir] itself. *)
Definition is_entry_of (p : Platform) (dir target : string) : bool :=
  is_under p dir target
  && (length (components p target) =? S (length (components p dir)))%nat.

End Path.

(** ** The Node runtime, as far as the script sees it *)

(** [new Error(message)] and the errors the runtime raises. *)
Record JsError := mkError { message : string }.

(** The exit code a child's [close] event carries: a number, or [null]
    when a signal ended the child. *)
Definition ExitCode := option Z.

(** [code !== 0] *)
Definition code_nonzero (code : ExitCode) : bool :=
  match code with
  | Some 0%Z => false
  | _ => true
  end.

(** [`${code}`] *)
Definition show_code (code : ExitCode) : string :=
  match code with
  | Some z => pretty z
  | None => "null"
  end.

(** The [stdio] option of [spawn]. *)
Inductive Stdio := Inherit | Pipe.

(** What a child process emits, in order. *)
Inductive ChildEvent :=
| StdoutData (chunk : string)
| StderrData (chunk : string)
| ErrorEvent (e : JsError)
| CloseEvent (code : ExitCode).

(** The disk: the files that exist, with their contents. *)
Abbreviation Disk := (gmap string string).

(** A child process: the events it emits and the disk it leaves. *)
Record Child := mkChild { c_events : list ChildEvent; c_disk : Disk }.

(** [execSync] returns the command's standard output or throws (the
    command could not be run, or its exit status is not zero). *)
Inductive ExecResult :=
| ExecOk (stdout : string)
| ExecFail (e : JsError).

(** A host: the machine and the runtime the script runs on.  Writing to
    the console always works. *)
Record Host := mkHost {
  h_platform : string;                  (* process.platform *)
  h_dirname : string;                   (* __dirname *)
  h_cwd : string;                       (* process.cwd() *)
  h_disk : Disk;                        (* the disk when the script starts *)
  h_execSync : string -> ExecResult;
  h_spawn : Stdio -> string -> list string -> Disk -> Child;
  h_write_denied : string -> bool;      (* writeFileSync throws here *)
  h_unlink_denied : string -> bool      (* unlinkSync throws here *)
}.

(** A console argument: a string, or an error object. *)
Inductive Arg := AStr (s : string) | AErr (e : JsError).

Inductive Level := LLog | LError | LWarn.

(** What the script does to the outside, in the order it does it.
    [EClosed] is the [close] event of a child reaching its listener; it
    carries the disk the child has left at that moment. *)
Inductive Effect :=
| EExec (cmd : string)
| ESpawn (io : Stdio) (cmd : string) (args : list string)
| EClosed (io : Stdio) (cmd : string) (args : list string)
          (code : ExitCode) (disk : Disk)
| EConsole (lvl : Level) (args : list Arg)
| EWriteFile (path data : string)
| EUnlink (path : string)
| EExit (code : Z).

(** ** Promises and event listeners *)

Inductive Promise (A : Type) :=
| Pending
| Fulfilled (a : A)
| Rejected (e : JsError).
Arguments Pending {A}.
Arguments Fulfilled {A} a.
Arguments Rejected {A} e.

(** [resolve] and [reject] settle a pending promise and do nothing to a
    settled one. *)
Definition resolve {A} (a : A) (p : Promise A) : Promise A :=
  match p with Pending => Fulfilled a | _ => p end.

Definition reject {A} (e : JsError) (p : Promise A) : Promise A :=
  match p with Pending => Rejected e | _ => p end.

Definition is_settled {A} (p : Promise A) : bool :=
  match p with Pending => false | _ => true end.

(** The listeners a caller attaches to a child with [.on(...)]; [S] is
    the state the listeners close over. *)
Record Listeners (S : Type) := mkListeners {
  on_stdout_data : option (string -> S -> S);
  on_stderr_data : option (string -> S -> S);
  on_close : option (ExitCode -> S -> S);
  on_error : option (JsError -> S -> S)
}.
Arguments mkListeners {S}.
Arguments on_stdout_data {S}.
Arguments on_stderr_data {S}.
Arguments on_close {S}.
Arguments on_error {S}.

Definition notify {S X} (l : option (X -> S -> S)) (x : X) (s : S) : S :=
  match l with Some f => f x s | None => s end.

(** How the wait for a child ends. *)
Inductive Ending :=
| Closed (code : ExitCode)   (* the close event was delivered *)
| Resumed                    (* the promise was settled before the close *)
| Silent                     (* the child emits nothing more: no close *)
| Unhandled (e : JsError).   (* an error event found no listener *)

(** The event loop while the caller awaits: events reach the listeners in
    order.  The caller resumes as soon as its promise is settled (later
    events cannot change a settled promise); [close] is the last event of
    a child; an [error] event without a listener is thrown by the
    emitter, and nobody catches it. *)
Fixpoint deliver {S} (L : Listeners S) (settled : S -> bool)
    (evs : list ChildEvent) (s : S) : S * Ending :=
  if settled s then (s, Resumed) else
  match evs with
  | [] => (s, Silent)
  | StdoutData d :: rest => deliver L settled rest (notify (on_stdout_data L) d s)
  | StderrData d :: rest => deliver L settled rest (notify (on_stderr_data L) d s)
  | ErrorEvent e :: rest =>
      match on_error L with
      | Some f => deliver L settled rest (f e s)
      | None => (s, Unhandled e)
      end
  | CloseEvent code :: _ => (notify (on_close L) code s, Closed code)
  end.

(** ** The monad of the script *)

Record World := mkWorld { w_disk : Disk; w_trace : list Effect }.

(** Ways of not coming back: [process.exit], an await that never
    resumes, and an exception (or rejection) that nothing handles. *)
Inductive Halt :=
| Exited (code : Z)
| Hung
| Crashed (e : JsError).

Inductive Completion (A : Type) :=
| Normal (a : A)
| Thrown (e : JsError)
| Halted (h : Halt).
Arguments Normal {A} a.
Arguments Thrown {A} e.
Arguments Halted {A} h.

Definition M (A : Type) : Type := World -> Completion A * World.

Definition ret {A} (a : A) : M A := fun w => (Normal a, w).

Definition bind {A B} (m : M A) (k : A -> M B) : M B := fun w =>
  match m w with
  | (Normal a, w') => k a w'
  | (Thrown e, w') => (Thrown e, w')
  | (Halted h, w') => (Halted h, w')
  end.

Notation "x <- m ;; k" := (bind m (fun x => k))
  (at level 100, m at next level, right associativity).
Notation "m ;; k" := (bind m (fun _ => k))
  (at level 100, right associativity).

Definition throw {A} (e : JsError) : M A := fun w => (Thrown e, w).

(** [try { body } catch (error) { handler }] *)
Definition try_catch {A} (body : M A) (handler : JsError -> M A) : M A :=
  fun w =>
    match body w with
    | (Thrown e, w') => handler e w'
    | r => r
    end.

(** [try { body } finally { cleanup }]: the cleanup runs when the body
    returns or throws, and its own completion wins unless it is normal. *)
Definition try_finally {A} (body : M A) (cleanup : M unit) : M A :=
  fun w =>
    match body w with
    | (Halted h, w') => (Halted h, w')
    | (r, w') =>
        match cleanup w' with
        | (Normal _, w'') => (r, w'')
        | (Thrown e, w'') => (Thrown e, w'')
        | (Halted h, w'') => (Halted h, w'')
        end
    end.

(** [await p] *)
Definition await {A} (p : Promise A) : M A := fun w =>
  match p with
  | Fulfilled a => (Normal a, w)
  | Rejected e => (Thrown e, w)
  | Pending => (Halted Hung, w)
  end.

(** A call of an async function whose promise nobody awaits: a rejection
    is not the caller's exception. *)
Definition detach (m : M unit) : M unit := fun w =>
  match m w with
  | (Thrown e, w') => (Halted (Crashed e), w')
  | r => r
  end.

Definition emit (e : Effect) : M unit := fun w =>
  (Normal tt, mkWorld (w_disk w) (e :: w_trace w)).

Definition console (lvl : Level) (args : list Arg) : M unit :=
  emit (EConsole lvl args).

(** [process.exit(code)] *)
Definition process_exit {A} (code : Z) : M A := fun w =>
  (Halted (Exited code), mkWorld (w_disk w) (EExit code :: w_trace w)).

(** ** The script *)

Section Script.

Variable h : Host.

(** [process.platform === 'win32'] *)
Definition is_win32 : bool := String.eqb (h_platform h) "win32".

(** The flavour of [path] the runtime loads. *)
Definition flavour : Platform := if is_win32 then Win32 else Posix.

Definition path_join (parts : list string) : string := Path.join flavour parts.

(** [execSync(cmd).toString()] *)
Definition execSync (cmd : string) : M string := fun w =>
  let w' := mkWorld (w_disk w) (EExec cmd :: w_trace w) in
  match h_execSync h cmd with
  | ExecOk out => (Normal out, w')
  | ExecFail e => (Thrown e, w')
  end.

(** [spawn(cmd, args, { stdio })] with its listeners attached, up to the
    moment the awaiting caller resumes.  The child works on the disk.
    The runtime is taken to start the child or to tell by an [error]
    event that it could not; the few failures it raises from [spawn]
    itself are not part of a host. *)
Definition spawn {S} (io : Stdio) (cmd : string) (args : list string)
    (L : Listeners S) (settled : S -> bool) (s0 : S) : M S := fun w =>
  let child := h_spawn h io cmd args (w_disk w) in
  let started := ESpawn io cmd args :: w_trace w in
  match deliver L settled (c_events child) s0 with
  | (s, Closed code) =>
      (Normal s,
       mkWorld (c_disk child)
               (EClosed io cmd args code (c_disk child) :: started))
  | (_, Unhandled e) => (Halted (Crashed e), mkWorld (c_disk child) started)
  | (s, _) => (Normal s, mkWorld (c_disk child) started)
  end.

(** [fs.writeFileSync(path, data)] *)
Definition writeFileSync (path data : string) : M unit := fun w =>
  let tr := EWriteFile path data :: w_trace w in
  if h_write_denied h path
  then (Thrown (mkError ("EACCES: permission denied, open '" ++ path ++ "'")),
        mkWorld (w_disk w) tr)
  else (Normal tt, mkWorld (<[path := data]> (w_disk w)) tr).

(** [fs.unlinkSync(path)] *)
Definition unlinkSync (path : string) : M unit := fun w =>
  let tr := EUnlink path :: w_trace w in
  match w_disk w !! path with
  | None =>
      (Thrown (mkError ("ENOENT: no such file or directory, unlink '"
                        ++ path ++ "'")),
       mkWorld (w_disk w) tr)
  | Some _ =>
      if h_unlink_denied h path
      then (Thrown (mkError ("EPERM: operation not permitted, unlink '"
                             ++ path ++ "'")),
            mkWorld (w_disk w) tr)
      else (Normal tt, mkWorld (delete path (w_disk w)) tr)
  end.

(** *** [getPythonPath] *)

Definition which_python : string := "which python3 || which python".
Definition where_python : string := "where python".
Definition python_not_found : string :=
  "Python not found. Please install Python and add it to your PATH.".

Definition getPythonPath : M string :=
  try_catch
    (out <- execSync which_python ;;
     let pythonPath := Js.trim out in
     if Js.is_empty pythonPath then throw (mkError "Python not found")
     else ret pythonPath)
    (fun _error =>
       try_catch
         (out <- execSync where_python ;;
          let pythonPath := Js.trim (Js.first_line out) in
          if Js.is_empty pythonPath then throw (mkError "Python not found")
          else ret pythonPath)
         (fun _windowsError => throw (mkError python_not_found))).

(** *** [runCommand] *)

Definition command_failed (code : ExitCode) : JsError :=
  mkError ("Command failed with exit code " ++ show_code code).

(** The only listener [runCommand] attaches is the one for [close]. *)
Definition runCommand_listeners : Listeners (Promise unit) :=
  mkListeners None None
    (Some (fun code p =>
             if code_nonzero code then reject (command_failed code) p
             else resolve tt p))
    None.

Definition runCommand_promise (cmd : string) (args : list string)
  : M (Promise unit) :=
  spawn Inherit cmd args runCommand_listeners is_settled Pending.

Definition runCommand (cmd : string) (args : list string) : M unit :=
  p <- runCommand_promise cmd args ;; await p.

(** *** [runCommandWithOutput] *)

(** What the promise resolves with: [{ code, stdout, stderr }]. *)
Record Output := mkOutput {
  code : ExitCode;
  stdout : string;
  stderr : string
}.

(** The variables the listeners of [runCommandWithOutput] close over. *)
Record Capture := mkCapture {
  cap_stdout : string;
  cap_stderr : string;
  cap_promise : Promise Output
}.

Definition runCommandWithOutput_listeners : Listeners Capture :=
  mkListeners
    (Some (fun data c =>
             mkCapture (cap_stdout c ++ data) (cap_stderr c) (cap_promise c)))
    (Some (fun data c =>
             mkCapture (cap_stdout c) (cap_stderr c ++ data) (cap_promise c)))
    (Some (fun code c =>
             mkCapture (cap_stdout c) (cap_stderr c)
               (resolve (mkOutput code (cap_stdout c) (cap_stderr c))
                        (cap_promise c))))
    (Some (fun error c =>
             mkCapture (cap_stdout c) (cap_stderr c)
               (reject error (cap_promise c)))).

Definition runCommandWithOutput_promise (cmd : string) (args : list string)
  : M (Promise Output) :=
  c <- spawn Pipe cmd args runCommandWithOutput_listeners
         (fun c => is_settled (cap_promise c))
         (mkCapture EmptyString EmptyString Pending) ;;
  ret (cap_promise c).

Definition runCommandWithOutput (cmd : string) (args : list string)
  : M Output :=
  p <- runCommandWithOutput_promise cmd args ;; await p.

(** *** [downloadEasyOCRModels] *)

Definition nl : string := String Js.newline EmptyString.
Definition dq : string := String (ascii_of_nat 34) EmptyString.

Definition downloadScript : string :=
  nl ++ "import easyocr" ++
  nl ++ "import sys" ++
  nl ++
  nl ++ "try:" ++
  nl ++ "    print(" ++ dq
     ++ "Initializing EasyOCR Reader with English language..." ++ dq ++ ")" ++
  nl ++ "    reader = easyocr.Reader(['en'], gpu=False)" ++
  nl ++ "    print(" ++ dq ++ "Models downloaded successfully!" ++ dq ++ ")" ++
  nl ++ "    print(" ++ dq ++ "EasyOCR is ready to use." ++ dq ++ ")" ++
  nl ++ "except Exception as e:" ++
  nl ++ "    print(f" ++ dq ++ "Error downloading models: {e}" ++ dq
     ++ ", file=sys.stderr)" ++
  nl ++ "    sys.exit(1)" ++
  nl.

Definition scriptPath : string := path_join [h_dirname h; "download_models_temp.py"].

Definition downloadEasyOCRModels (venvPythonPath : string) : M unit :=
  try_catch
    (console LLog [AStr (nl ++ "Downloading EasyOCR models...")] ;;
     console LLog [AStr "This may take a few minutes on first run..."] ;;
     writeFileSync scriptPath downloadScript ;;
     try_finally
       (result <- runCommandWithOutput venvPythonPath [scriptPath] ;;
        if code_nonzero (code result) then
          console LError [AStr "Error downloading models:"; AStr (stderr result)] ;;
          throw (mkError "Failed to download EasyOCR models")
        else
          console LLog [AStr (stdout result)] ;;
          console LLog [AStr "EasyOCR models setup complete!"])
       (try_catch (unlinkSync scriptPath) (fun _e => ret tt)))
    (fun error =>
       console LError [AStr "Error downloading EasyOCR models:";
                       AStr (message error)] ;;
       console LWarn [AStr "Models will be downloaded automatically on first use."]).

(** *** The top level and [setup] *)

Definition venvPath : string := path_join [h_dirname h; "venv"].

Definition requirements : list string := ["easyocr"; "torch"; "torchvision"].

Definition venvPythonPath : string :=
  if is_win32 then path_join [venvPath; "Scripts"; "python.exe"]
  else path_join [venvPath; "bin"; "python"].

(** [for (const req of requirements) { ... }] *)
Fixpoint install_each (reqs : list string) : M unit :=
  match reqs with
  | [] => ret tt
  | req :: rest =>
      console LLog [AStr ("Installing " ++ req ++ "...")] ;;
      runCommand venvPythonPath ["-m"; "pip"; "install"; req] ;;
      install_each rest
  end.

Definition setup (pythonPath : string) : M unit :=
  try_catch
    (console LLog [AStr "Setting up Python environment..."] ;;
     console LLog [AStr ("Using Python at: " ++ pythonPath)] ;;
     console LLog [AStr "Creating virtual environment..."] ;;
     runCommand pythonPath ["-m"; "venv"; venvPath] ;;
     console LLog [AStr "Upgrading pip..."] ;;
     runCommand venvPythonPath ["-m"; "pip"; "install"; "--upgrade"; "pip"] ;;
     install_each requirements ;;
     console LLog [AStr "Python dependencies installation complete!"] ;;
     downloadEasyOCRModels venvPythonPath ;;
     console LLog [AStr (nl ++ "Python environment setup complete!")] ;;
     console LLog [AStr "To activate the virtual environment, run:"] ;;
     if is_win32 then
       console LLog [AStr (path_join [venvPath; "Scripts"; "activate.bat"])]
     else
       console LLog [AStr ("source " ++ path_join [venvPath; "bin"; "activate"])])
    (fun error =>
       console LError [AStr "Error setting up Python environment:"; AErr error] ;;
       process_exit 1).

Definition main : M unit :=
  try_catch
    (pythonPath <- getPythonPath ;;
     detach (setup pythonPath))
    (fun error =>
       console LError [AStr "Error:"; AStr (message error)] ;;
       process_exit 1).

(** ** A run of the script *)

(** How the process ends, the effects in the order they happened and the
    disk it leaves.  A script that runs to its end exits with code 0. *)
Record Run := mkRun {
  r_outcome : Halt;
  r_trace : list Effect;
  r_disk : Disk
}.

Definition finish {A} (r : Completion A * World) : Run :=
  let '(c, w) := r in
  mkRun (match c with
         | Normal _ => Exited 0
         | Thrown e => Crashed e
         | Halted o => o
         end)
        (rev (w_trace w)) (w_disk w).

Definition start : World := mkWorld (h_disk h) [].

Definition run : Run := finish (main start).

End Script.

(** ** Directories and their entries *)

(** A directory name as the runtime hands out [__dirname]: rooted, and
    without [.] or [..] among its segments. *)
Definition rooted_plain (p : Platform) (dir : string) : bool :=
  Path.starts_with_sep p (snd (Path.split_device p dir))
  && forallb (fun seg => negb (String.eqb seg ".") && negb (String.eqb seg ".."))
             (Path.components p dir).

(** No character of [s] passes the test [f]. *)
Fixpoint free_of (f : ascii -> bool) (s : string) : bool :=
  match s with
  | EmptyString => true
  | String c s' => negb (f c) && free_of f s'
  end.

(** A file name: not empty, not [.] or [..], and no separator in it. *)
Definition plain_name (p : Platform) (name : string) : bool :=
  negb (Js.is_empty name)
  && negb (String.eqb name ".") && negb (String.eqb name "..")
  && free_of (Path.is_sep p) name.

(** ** The messages the claims are about *)

(** The error [downloadEasyOCRModels] throws when the driver script
    exits with a code other than 0. *)
Definition download_failed : JsError :=
  mkError "Failed to download EasyOCR models".

(** The warning of the handler in [downloadEasyOCRModels]. *)
Definition download_warning : Effect :=
  EConsole LWarn [AStr "Models will be downloaded automatically on first use."].

(** The first line [setup] prints after the model download. *)
Definition setup_complete : Effect :=
  EConsole LLog [AStr (nl ++ "Python environment setup complete!")].

(** The line the handler of [setup] prints before [process.exit(1)]. *)
Definition setup_failed (error : JsError) : Effect :=
  EConsole LError [AStr "Error setting up Python environment:"; AErr error].

(** ** Reading child events and traces *)

(** A data chunk, as opposed to [error] and [close]. *)
Definition is_data (ev : ChildEvent) : bool :=
  match ev with
  | StdoutData _ | StderrData _ => true
  | _ => false
  end.

Definition is_close (ev : ChildEvent) : bool :=
  match ev with CloseEvent _ => true | _ => false end.

(** Everything the child wrote to its standard output, in order. *)
Fixpoint stdout_of (evs : list ChildEvent) : string :=
  match evs with
  | [] => EmptyString
  | StdoutData d :: rest => d ++ stdout_of rest
  | _ :: rest => stdout_of rest
  end.

Fixpoint stderr_of (evs : list ChildEvent) : string :=
  match evs with
  | [] => EmptyString
  | StderrData d :: rest => d ++ stderr_of rest
  | _ :: rest => stderr_of rest
  end.

(** ** Sample hosts

    Machines to run the script on.  The package sits in
    [/opt/node-easyocr] and the user invokes it from a project elsewhere.
    Creating the environment leaves [pyvenv.cfg] in the target directory
    once the child has run, also when it then fails; the other children
    leave the disk alone. *)

Definition sample_dirname : string := "/opt/node-easyocr".
Definition sample_cwd : string := "/home/user/project".
Definition sample_python : string := "/usr/bin/python3".

Definition sample_execSync (cmd : string) : ExecResult :=
  if String.eqb cmd "which python3 || which python"
  then ExecOk (sample_python ++ String Js.newline EmptyString)
  else ExecFail (mkError ("Command failed: " ++ cmd)).

Definition no_execSync (cmd : string) : ExecResult :=
  ExecFail (mkError ("Command failed: " ++ cmd)).

Definition sample_spawn (behave : list string -> list ChildEvent)
    (io : Stdio) (cmd : string) (args : list string) (disk : Disk) : Child :=
  mkChild (behave args)
          (match args with
           | ["-m"; "venv"; target] =>
               if existsb is_close (behave args)
               then <[(target ++ "/pyvenv.cfg")%string := "home = /usr/bin"]> disk
               else disk
           | _ => disk
           end).

Definition sample_host (exec : string -> ExecResult)
    (behave : list string -> list ChildEvent) (unlink_denied : bool) : Host :=
  mkHost "linux" sample_dirname sample_cwd ∅ exec (sample_spawn behave)
         (fun _ => false) (fun _ => unlink_denied).

(** Every child closes with code 0; the driver script prints a line
    first. *)
Definition all_fine (args : list string) : list ChildEvent :=
  match args with
  | [_script] => [StdoutData "Models downloaded successfully!"; CloseEvent (Some 0%Z)]
  | _ => [CloseEvent (Some 0%Z)]
  end.

(** [pip install torch] exits with code 2. *)
Definition torch_fails (args : list string) : list ChildEvent :=
  match args with
  | ["-m"; "pip"; "install"; "torch"] => [CloseEvent (Some 2%Z)]
  | _ => all_fine args
  end.

(** The driver script complains and exits with code 1. *)
Definition download_fails (args : list string) : list ChildEvent :=
  match args with
  | [_script] =>
      [StderrData "Error downloading models: no route to host";
       CloseEvent (Some 1%Z)]
  | _ => all_fine args
  end.

(** No child can be started: each emits an [error] event and nothing
    else. *)
Definition cannot_start (args : list string) : list ChildEvent :=
  [ErrorEvent (mkError "spawn ENOENT")].

(** A Windows machine: there is no [which], and [where python] lists
    two interpreters. *)
Definition crlf : string :=
  String (ascii_of_nat 13) (String Js.newline EmptyString).

Definition windows_execSync (cmd : string) : ExecResult :=
  if String.eqb cmd "where python"
  then ExecOk ("C:\Python311\python.exe" ++ crlf
               ++ "C:\Users\me\AppData\Local\Microsoft\WindowsApps\python.exe"
               ++ crlf)
  else ExecFail (mkError ("Command failed: " ++ cmd)).

Definition host_windows : Host :=
  mkHost "win32" "C:\pkg\node-easyocr" "C:\Users\me\project" ∅
         windows_execSync (sample_spawn all_fine)
         (fun _ => false) (fun _ => false).

(** The disk once the environment was created on a sample host. *)
Definition sample_env_disk : Disk :=
  {[ "/opt/node-easyocr/venv/pyvenv.cfg" := "home = /usr/bin" ]}.

Definition host_ok : Host := sample_host sample_execSync all_fine false.
Definition host_torch_fails : Host := sample_host sample_execSync torch_fails false.
Definition host_download_fails : Host :=
  sample_host sample_execSync download_fails false.
Definition host_no_python : Host := sample_host no_execSync all_fine false.
Definition host_locked : Host := sample_host sample_execSync all_fine true.
Definition host_cannot_start : Host :=
  sample_host sample_execSync cannot_start false.

(** ** How the pieces of the script end *)

Section Endings.

Variable h : Host.

(** The world once a child is started, and once its close was
    delivered. *)
Definition spawned (io : Stdio) (cmd : string) (args : list string)
    (w : World) : World :=
  mkWorld (c_disk (h_spawn h io cmd args (w_disk w)))
          (ESpawn io cmd args :: w_trace w).

Definition closed (io : Stdio) (cmd : string) (args : list string)
    (code : ExitCode) (w : World) : World :=
  let disk := c_disk (h_spawn h io cmd args (w_disk w)) in
  mkWorld disk (EClosed io cmd args code disk :: ESpawn io cmd args :: w_trace w).

Inductive runCommand_ends (cmd : string) (args : list string) (w : World)
  : Completion unit * World -> Prop :=
| RC_resolved :
    In (CloseEvent (Some 0%Z)) (c_events (h_spawn h Inherit cmd args (w_disk w))) ->
    runCommand_ends cmd args w (Normal tt, closed Inherit cmd args (Some 0%Z) w)
| RC_rejected (code : ExitCode) :
    code_nonzero code = true ->
    In (CloseEvent code) (c_events (h_spawn h Inherit cmd args (w_disk w))) ->
    runCommand_ends cmd args w
      (Thrown (command_failed code), closed Inherit cmd args code w)
| RC_hung :
    existsb is_close (c_events (h_spawn h Inherit cmd args (w_disk w))) = false ->
    runCommand_ends cmd args w (Halted Hung, spawned Inherit cmd args w)
| RC_crashed (e : JsError) :
    In (ErrorEvent e) (c_events (h_spawn h Inherit cmd args (w_disk w))) ->
    runCommand_ends cmd args w (Halted (Crashed e), spawned Inherit cmd args w).

Inductive runCommandWithOutput_ends (cmd : string) (args : list string)
    (w : World) : Completion Output * World -> Prop :=
| RO_resolved (exit : ExitCode) (pre post : list ChildEvent) :
    c_events (h_spawn h Pipe cmd args (w_disk w)) = pre ++ CloseEvent exit :: post ->
    forallb is_data pre = true ->
    runCommandWithOutput_ends cmd args w
      (Normal (mkOutput exit (stdout_of pre) (stderr_of pre)),
       closed Pipe cmd args exit w)
| RO_rejected (e : JsError) :
    In (ErrorEvent e) (c_events (h_spawn h Pipe cmd args (w_disk w))) ->
    runCommandWithOutput_ends cmd args w (Thrown e, spawned Pipe cmd args w)
| RO_hung :
    runCommandWithOutput_ends cmd args w (Halted Hung, spawned Pipe cmd args w).

(** The two lookups of [getPythonPath], each with the path it yields. *)
Definition unix_lookup : option string :=
  match h_execSync h which_python with
  | ExecOk out =>
      if Js.is_empty (Js.trim out) then None else Some (Js.trim out)
  | ExecFail _ => None
  end.

Definition windows_lookup : option string :=
  match h_execSync h where_python with
  | ExecOk out =>
      if Js.is_empty (Js.trim (Js.first_line out)) then None
      else Some (Js.trim (Js.first_line out))
  | ExecFail _ => None
  end.

(** The disk after the cleanup of the temporary script: [unlinkSync]
    removes the file unless the host refuses; when the file is not there
    it throws as well, and there is nothing to remove. *)
Definition after_cleanup (disk : Disk) : Disk :=
  if h_unlink_denied h (scriptPath h) then disk
  else delete (scriptPath h) disk.

(** The world in which [downloadEasyOCRModels] starts the driver script:
    after its two announcements and the write of the script. *)
Definition announced (w : World) : list Effect :=
  EConsole LLog [AStr "This may take a few minutes on first run..."]
  :: EConsole LLog [AStr (nl ++ "Downloading EasyOCR models...")]
  :: w_trace w.

Definition written (w : World) : World :=
  mkWorld (<[scriptPath h := downloadScript]> (w_disk w))
          (EWriteFile (scriptPath h) downloadScript :: announced w).

Definition download_error (e : JsError) : Effect :=
  EConsole LError [AStr "Error downloading EasyOCR models:"; AStr (message e)].

Inductive download_ends (py : string) (w : World)
  : Completion unit * World -> Prop :=
| DL_not_written (e : JsError) :
    h_write_denied h (scriptPath h) = true ->
    download_ends py w
      (Normal tt,
       mkWorld (w_disk w)
         (download_warning :: download_error e
          :: EWriteFile (scriptPath h) downloadScript :: announced w))
| DL_downloaded (out : string) :
    h_write_denied h (scriptPath h) = false ->
    download_ends py w
      (Normal tt,
       mkWorld (after_cleanup (w_disk (closed Pipe py [scriptPath h] (Some 0%Z) (written w))))
         (EUnlink (scriptPath h)
          :: EConsole LLog [AStr "EasyOCR models setup complete!"]
          :: EConsole LLog [AStr out]
          :: w_trace (closed Pipe py [scriptPath h] (Some 0%Z) (written w))))
| DL_failed (exit : ExitCode) (err : string) :
    h_write_denied h (scriptPath h) = false ->
    code_nonzero exit = true ->
    download_ends py w
      (Normal tt,
       mkWorld (after_cleanup (w_disk (closed Pipe py [scriptPath h] exit (written w))))
         (download_warning :: download_error download_failed
          :: EUnlink (scriptPath h)
          :: EConsole LError [AStr "Error downloading models:"; AStr err]
          :: w_trace (closed Pipe py [scriptPath h] exit (written w))))
| DL_not_started (e : JsError) :
    h_write_denied h (scriptPath h) = false ->
    In (ErrorEvent e)
       (c_events (h_spawn h Pipe py [scriptPath h] (w_disk (written w)))) ->
    download_ends py w
      (Normal tt,
       mkWorld (after_cleanup (w_disk (spawned Pipe py [scriptPath h] (written w))))
         (download_warning :: download_error e
          :: EUnlink (scriptPath h)
          :: w_trace (spawned Pipe py [scriptPath h] (written w))))
| DL_hung :
    h_write_denied h (scriptPath h) = false ->
    download_ends py w (Halted Hung, spawned Pipe py [scriptPath h] (written w)).

End Endings.

(** ** Reading traces *)

(** Every way of cutting a list around one of its elements that passes
    the test [keep]. *)
Fixpoint cuts {A} (keep : A -> bool) (l : list A) : list (list A * A * list A) :=
  match l with
  | [] => []
  | x :: xs =>
      (if keep x then [([], x, xs)] else [])
      ++ map (fun s => (x :: fst (fst s), snd (fst s), snd s)) (cuts keep xs)
  end.

Definition is_spawn (e : Effect) : bool :=
  match e with ESpawn _ _ _ => true | _ => false end.

(** The close of a child that was started with the given [stdio]. *)
Definition is_closed (io : Stdio) (e : Effect) : bool :=
  match io, e with
  | Inherit, EClosed Inherit _ _ _ _ => true
  | Pipe, EClosed Pipe _ _ _ _ => true
  | _, _ => false
  end.

(** An installation step that closed did so with code 0. *)
Definition install_ok (e : Effect) : bool :=
  match e with
  | EClosed Inherit _ _ code _ => negb (code_nonzero code)
  | _ => true
  end.

(** The effects that change the disk: the script's own writes and
    unlinks, and the children it starts. *)
Definition touches_disk (e : Effect) : bool :=
  match e with
  | EWriteFile _ _ | EUnlink _ | ESpawn _ _ _ => true
  | _ => false
  end.

Definition is_setup_failed (e : Effect) : bool :=
  match e with
  | EConsole LError [AStr "Error setting up Python environment:"; AErr _] => true
  | _ => false
  end.

(** The commands a trace starts, in order. *)
Definition Command : Type := Stdio * string * list string.

Fixpoint spawns (tr : list Effect) : list Command :=
  match tr with
  | [] => []
  | ESpawn io cmd args :: rest => (io, cmd, args) :: spawns rest
  | _ :: rest => spawns rest
  end.





(** The directories a trace asks the [venv] module to create. *)
Fixpoint created_envs (tr : list Effect) : list string :=
  match tr with
  | [] => []
  | ESpawn _ _ [flag; module; target] :: rest =>
      if String.eqb flag "-m" && String.eqb module "venv"
      then target :: created_envs rest
      else created_envs rest
  | _ :: rest => created_envs rest
  end.

(** The files a trace writes, and those it tries to unlink. *)
Fixpoint files_written (tr : list Effect) : list string :=
  match tr with
  | [] => []
  | EWriteFile path _ :: rest => path :: files_written rest
  | _ :: rest => files_written rest
  end.

Fixpoint files_unlinked (tr : list Effect) : list string :=
  match tr with
  | [] => []
  | EUnlink path :: rest => path :: files_unlinked rest
  | _ :: rest => files_unlinked rest
  end.

(** The same host, invoked from another working directory. *)
Definition with_cwd (cwd : string) (h : Host) : Host :=
  mkHost (h_platform h) (h_dirname h) cwd (h_disk h) (h_execSync h)
         (h_spawn h) (h_write_denied h) (h_unlink_denied h).

Section Pipeline.

Variable h : Host.

(** The last line of a complete run. *)
Definition activation_hint : Effect :=
  EConsole LLog
    [AStr (if is_win32 h
           then path_join h [venvPath h; "Scripts"; "activate.bat"]
           else "source " ++ path_join h [venvPath h; "bin"; "activate"])].

(** The provisioning steps, in the order of the script. *)
Definition pipeline (python : string) : list Command :=
  [ (Inherit, python, ["-m"; "venv"; venvPath h]);
    (Inherit, venvPythonPath h, ["-m"; "pip"; "install"; "--upgrade"; "pip"]);
    (Inherit, venvPythonPath h, ["-m"; "pip"; "install"; "easyocr"]);
    (Inherit, venvPythonPath h, ["-m"; "pip"; "install"; "torch"]);
    (Inherit, venvPythonPath h, ["-m"; "pip"; "install"; "torchvision"]);
    (Pipe, venvPythonPath h, [scriptPath h]) ].

(** What the top level prints when no interpreter is found. *)
Definition not_found_trace : list Effect :=
  [ EExec which_python;
    EExec where_python;
    EConsole LError [AStr "Error:"; AStr python_not_found];
    EExit 1 ].

End Pipeline.


(** ** More sample hosts and readers *)

(** The directory of the package is read-only: the temporary script
    cannot be written. *)
Definition host_readonly : Host :=
  mkHost "linux" sample_dirname sample_cwd ∅ sample_execSync
         (sample_spawn all_fine) (fun _ => true) (fun _ => false).

(** The driver script cannot be started, though the interpreter that
    ran the installs is there: the child emits [error], and then a close
    with the code of the failed start. *)
Definition driver_cannot_start (args : list string) : list ChildEvent :=
  match args with
  | [_script] =>
      [ErrorEvent (mkError "spawn EACCES"); CloseEvent (Some (-13)%Z)]
  | _ => all_fine args
  end.

Definition host_driver_cannot_start : Host :=
  sample_host sample_execSync driver_cannot_start false.

Definition is_exit (e : Effect) : bool :=
  match e with EExit _ => true | _ => false end.

Definition is_warning (e : Effect) : bool :=
  match e with EConsole LWarn _ => true | _ => false end.

Definition is_pipe_spawn (e : Effect) : bool :=
  match e with ESpawn Pipe _ _ => true | _ => false end.


(** The interpreter of the environment, as [setup] writes it for each
    platform. *)
Definition venv_python_parts (h : Host) : list string :=
  if is_win32 h then ["Scripts"; "python.exe"] else ["bin"; "python"].


(** ** What a wait hears first *)

(** The first event of a child that is not a chunk of output: the one
    that settles a pending promise, if any listener hears it. *)
Fixpoint first_signal (evs : list ChildEvent) : option ChildEvent :=
  match evs with
  | [] => None
  | StdoutData _ :: rest | StderrData _ :: rest => first_signal rest
  | ev :: _ => Some ev
  end.

(** The chunks of output that come before it. *)
Fixpoint data_prefix (evs : list ChildEvent) : list ChildEvent :=
  match evs with
  | StdoutData d :: rest => StdoutData d :: data_prefix rest
  | StderrData d :: rest => StderrData d :: data_prefix rest
  | _ => []
  end.

(** The disk a trace leaves, from the disk it started on: the disk of
    the child that closed last.  Between the children of [setup] nothing
    else touches the disk, so this is the disk an installation child is
    started on. *)
Fixpoint disk_after (tr : list Effect) (disk : Disk) : Disk :=
  match tr with
  | [] => disk
  | EClosed _ _ _ _ disk' :: rest => disk_after rest disk'
  | _ :: rest => disk_after rest disk
  end.

Definition is_inherit_spawn (e : Effect) : bool :=
  match e with ESpawn Inherit _ _ => true | _ => false end.

(** The status the operating system sees.  [process.exit(c)] gives [c];
    an [error] event without a listener is thrown by the emitter, and
    Node ends a process with an uncaught exception with status 1; a
    process that waits for ever has no status. *)
Definition exit_status (o : Halt) : option Z :=
  match o with
  | Exited c => Some c
  | Crashed _ => Some 1%Z
  | Hung => None
  end.

(** pip cannot be started in the new environment, though the
    environment was created: the child of the upgrade emits [error] and
    nothing else. *)
Definition pip_cannot_start (args : list string) : list ChildEvent :=
  match args with
  | ["-m"; "pip"; "install"; "--upgrade"; "pip"] =>
      [ErrorEvent (mkError "spawn ENOENT")]
  | _ => all_fine args
  end.

Definition host_pip_cannot_start : Host :=
  sample_host sample_execSync pip_cannot_start false.

(** The driver script reports its progress in several chunks, and the
    library it loads warns on the standard error in between. *)
Definition chatty (args : list string) : list ChildEvent :=
  match args with
  | [_script] =>
      [StdoutData "Downloading detection model... ";
       StderrData "UserWarning: CUDA not available";
       StdoutData "Models downloaded successfully!";
       CloseEvent (Some 0%Z)]
  | _ => all_fine args
  end.

Definition host_chatty : Host := sample_host sample_execSync chatty false.

Section Signals.

Variable h : Host.

(** The ways [runCommand] ends, by the first signal of its child. *)
Inductive runCommand_ends_by (cmd : string) (args : list string) (w : World)
  : Completion unit * World -> Prop :=
| RB_resolved :
    first_signal (c_events (h_spawn h Inherit cmd args (w_disk w)))
    = Some (CloseEvent (Some 0%Z)) ->
    runCommand_ends_by cmd args w
      (Normal tt, closed h Inherit cmd args (Some 0%Z) w)
| RB_rejected (code : ExitCode) :
    code_nonzero code = true ->
    first_signal (c_events (h_spawn h Inherit cmd args (w_disk w)))
    = Some (CloseEvent code) ->
    runCommand_ends_by cmd args w
      (Thrown (command_failed code), closed h Inherit cmd args code w)
| RB_hung :
    first_signal (c_events (h_spawn h Inherit cmd args (w_disk w))) = None ->
    runCommand_ends_by cmd args w (Halted Hung, spawned h Inherit cmd args w)
| RB_crashed (e : JsError) :
    first_signal (c_events (h_spawn h Inherit cmd args (w_disk w)))
    = Some (ErrorEvent e) ->
    runCommand_ends_by cmd args w
      (Halted (Crashed e), spawned h Inherit cmd args w).

(** The ways [downloadEasyOCRModels] ends, by the first signal of the
    driver script and what it wrote before. *)
Inductive download_ends_by (py : string) (w : World)
  : Completion unit * World -> Prop :=
| DB_not_written (e : JsError) :
    h_write_denied h (scriptPath h) = true ->
    download_ends_by py w
      (Normal tt,
       mkWorld (w_disk w)
         (download_warning :: download_error e
          :: EWriteFile (scriptPath h) downloadScript :: announced w))
| DB_downloaded :
    h_write_denied h (scriptPath h) = false ->
    first_signal (c_events (h_spawn h Pipe py [scriptPath h] (w_disk (written h w))))
    = Some (CloseEvent (Some 0%Z)) ->
    download_ends_by py w
      (Normal tt,
       mkWorld (after_cleanup h (w_disk (closed h Pipe py [scriptPath h] (Some 0%Z) (written h w))))
         (EUnlink (scriptPath h)
          :: EConsole LLog [AStr "EasyOCR models setup complete!"]
          :: EConsole LLog
               [AStr (stdout_of
                        (data_prefix
                           (c_events (h_spawn h Pipe py [scriptPath h]
                                        (w_disk (written h w))))))]
          :: w_trace (closed h Pipe py [scriptPath h] (Some 0%Z) (written h w))))
| DB_failed (exit : ExitCode) :
    h_write_denied h (scriptPath h) = false ->
    code_nonzero exit = true ->
    first_signal (c_events (h_spawn h Pipe py [scriptPath h] (w_disk (written h w))))
    = Some (CloseEvent exit) ->
    download_ends_by py w
      (Normal tt,
       mkWorld (after_cleanup h (w_disk (closed h Pipe py [scriptPath h] exit (written h w))))
         (download_warning :: download_error download_failed
          :: EUnlink (scriptPath h)
          :: EConsole LError
               [AStr "Error downloading models:";
                AStr (stderr_of
                        (data_prefix
                           (c_events (h_spawn h Pipe py [scriptPath h]
                                        (w_disk (written h w))))))]
          :: w_trace (closed h Pipe py [scriptPath h] exit (written h w))))
| DB_not_started (e : JsError) :
    h_write_denied h (scriptPath h) = false ->
    first_signal (c_events (h_spawn h Pipe py [scriptPath h] (w_disk (written h w))))
    = Some (ErrorEvent e) ->
    download_ends_by py w
      (Normal tt,
       mkWorld (after_cleanup h (w_disk (spawned h Pipe py [scriptPath h] (written h w))))
         (download_warning :: download_error e
          :: EUnlink (scriptPath h)
          :: w_trace (spawned h Pipe py [scriptPath h] (written h w))))
| DB_hung :
    h_write_denied h (scriptPath h) = false ->
    first_signal (c_events (h_spawn h Pipe py [scriptPath h] (w_disk (written h w))))
    = None ->
    download_ends_by py w
      (Halted Hung, spawned h Pipe py [scriptPath h] (written h w)).

End Signals.

(** ** Paths *)

Lemma append_cons (c : ascii) (s t : string) :
  (String c s ++ t)%string = String c (s ++ t).
Proof. reflexivity. Qed.

Lemma append_nil_r (s : string) : (s ++ "")%string = s.
Proof.
  induction s as [|c s IH]; [reflexivity|].
  rewrite append_cons. now rewrite IH.
Qed.

Lemma append_assoc (s t u : string) :
  ((s ++ t) ++ u)%string = (s ++ t ++ u)%string.
Proof.
  induction s as [|c s IH]; [reflexivity|].
  rewrite !append_cons. now rewrite IH.
Qed.

Lemma is_empty_append (s t : string) :
  Js.is_empty (s ++ t) = Js.is_empty s && Js.is_empty t.
Proof. destruct s; reflexivity. Qed.

Section Splitting.

Variable f : ascii -> bool.

Lemma split_on_nonempty (s : string) : Js.split_on f s <> [].
Proof.
  destruct s as [|c s]; simpl; [discriminate|].
  destruct (f c); [discriminate|].
  destruct (Js.split_on f s); discriminate.
Qed.

(** Splitting distributes over a separator in the middle. *)
Lemma split_on_app_sep (a b : string) (c : ascii) :
  f c = true ->
  Js.split_on f (a ++ String c b) = Js.split_on f a ++ Js.split_on f b.
Proof.
  intros Hc. induction a as [|x a IH].
  - change (("" ++ String c b)%string) with (String c b).
    simpl. now rewrite Hc.
  - rewrite append_cons. simpl. rewrite IH.
    destruct (f x); [reflexivity|].
    destruct (Js.split_on f a) as [|w ws] eqn:Hsplit; [|reflexivity].
    now apply split_on_nonempty in Hsplit.
Qed.

Lemma split_on_free (s : string) : free_of f s = true -> Js.split_on f s = [s].
Proof.
  induction s as [|c s IH]; [reflexivity|].
  simpl. intros [Hc Hs]%andb_true_iff.
  apply negb_true_iff in Hc. rewrite Hc, IH by assumption. reflexivity.
Qed.

Lemma split_on_pieces_free (s : string) :
  forallb (free_of f) (Js.split_on f s) = true.
Proof.
  induction s as [|c s IH]; [reflexivity|].
  simpl. destruct (f c) eqn:Hc; [exact IH|].
  destruct (Js.split_on f s) as [|w ws]; simpl in *; [now rewrite Hc|].
  now rewrite Hc.
Qed.

(** Joining pieces that hold no separator and splitting again gives the
    pieces back. *)
Lemma split_on_join (c : ascii) (pieces : list string) :
  f c = true ->
  pieces <> [] ->
  forallb (free_of f) pieces = true ->
  Js.split_on f (Js.join (String c "") pieces) = pieces.
Proof.
  intros Hc. induction pieces as [|x [|y ys] IH]; intros Hne Hfree.
  - contradiction.
  - simpl in Hfree. rewrite andb_true_r in Hfree.
    now apply split_on_free.
  - change (Js.join (String c "") (x :: y :: ys))
      with (x ++ String c "" ++ Js.join (String c "") (y :: ys))%string.
    change (String c "" ++ Js.join (String c "") (y :: ys))%string
      with (String c (Js.join (String c "") (y :: ys))).
    rewrite split_on_app_sep by assumption.
    simpl in Hfree. apply andb_true_iff in Hfree as [Hx Hrest].
    rewrite split_on_free by assumption.
    rewrite IH; [reflexivity|discriminate|exact Hrest].
Qed.

End Splitting.

Lemma sep_is_sep (p : Platform) : exists c, Path.sep p = String c "" /\ Path.is_sep p c = true.
Proof. destruct p; eexists; split; reflexivity. Qed.

Lemma sep_not_letter (p : Platform) (c : ascii) : Path.is_sep p c = true -> Path.is_letter c = false.
Proof.
  destruct p; simpl.
  - intros ->%Ascii.eqb_eq. reflexivity.
  - intros [->%Ascii.eqb_eq| ->%Ascii.eqb_eq]%orb_true_iff; reflexivity.
Qed.

(** Appending to a rooted path leaves its drive alone. *)
Lemma split_device_app (p : Platform) (dir x : string) :
  Path.starts_with_sep p (snd (Path.split_device p dir)) = true ->
  Path.split_device p (dir ++ x)
  = (fst (Path.split_device p dir), (snd (Path.split_device p dir) ++ x)%string).
Proof.
  destruct p; [reflexivity|].
  destruct dir as [|c [|c' rest]]; simpl.
  - discriminate.
  - intros Hc. rewrite append_cons.
    change (("" ++ x)%string) with x.
    destruct x as [|c' rest]; [reflexivity|].
    simpl. rewrite (sep_not_letter Win32 c) by exact Hc. reflexivity.
  - intros Hroot. rewrite !append_cons. simpl.
    destruct (Path.is_letter c && Ascii.eqb c' ":"); reflexivity.
Qed.

(** A drive, a separator and a body: the drive is found again. *)
Lemma split_device_rebuild (p : Platform) (dir body : string) :
  Path.split_device p (fst (Path.split_device p dir) ++ Path.sep p ++ body)
  = (fst (Path.split_device p dir), (Path.sep p ++ body)%string).
Proof.
  destruct p; [reflexivity|].
  destruct dir as [|c [|c' rest]]; simpl.
  - destruct body; reflexivity.
  - destruct body; reflexivity.
  - destruct (Path.is_letter c && Ascii.eqb c' ":") eqn:Hdrive; simpl.
    + rewrite Hdrive. reflexivity.
    + destruct body; reflexivity.
Qed.

Lemma ends_with_sep_app (p : Platform) (a b : string) :
  Js.is_empty b = false ->
  Path.ends_with_sep p (a ++ b) = Path.ends_with_sep p b.
Proof.
  intros Hb. induction a as [|c a IH]; [reflexivity|].
  rewrite append_cons. simpl. rewrite IH.
  destruct (a ++ b)%string eqn:Hab; [|reflexivity].
  destruct a; [|discriminate].
  change (("" ++ b)%string) with b in Hab. now subst b.
Qed.

Lemma ends_with_sep_no_sep (p : Platform) (name : string) :
  free_of (Path.is_sep p) name = true -> Path.ends_with_sep p name = false.
Proof.
  induction name as [|c name IH]; [reflexivity|].
  simpl. intros [Hc Hname]%andb_true_iff. apply negb_true_iff in Hc.
  destruct name; [exact Hc|]. now apply IH.
Qed.

(** Plain segments are pushed as they come; empty ones are dropped. *)
Lemma fold_push_plain (above : bool) (segs acc : list string) :
  forallb (fun seg => negb (String.eqb seg ".") && negb (String.eqb seg ".."))
          (List.filter (fun seg => negb (Js.is_empty seg)) segs) = true ->
  fold_left (Path.push_segment above) segs acc
  = rev (List.filter (fun seg => negb (Js.is_empty seg)) segs) ++ acc.
Proof.
  revert acc. induction segs as [|seg segs IH]; intros acc Hplain.
  - reflexivity.
  - simpl in *. unfold Path.push_segment at 2.
    destruct (Js.is_empty seg) eqn:Hempty; simpl in *.
    + now apply IH.
    + apply andb_true_iff in Hplain as [Hseg Hplain].
      apply andb_true_iff in Hseg as [Hdot Hdots].
      apply negb_true_iff in Hdot, Hdots. rewrite Hdot, Hdots.
      rewrite IH by assumption. now rewrite <- app_assoc.
Qed.

Lemma join_last_nonempty (s : string) (xs : list string) (name : string) :
  Js.is_empty name = false -> Js.is_empty (Js.join s (xs ++ [name])) = false.
Proof.
  intros Hname. induction xs as [|x xs IH]; [exact Hname|].
  change (Js.join s ((x :: xs) ++ [name]))
    with (Js.join s (x :: (xs ++ [name]))).
  destruct (xs ++ [name]) as [|y ys] eqn:Hrest.
  - now destruct xs.
  - change (Js.join s (x :: y :: ys)) with (x ++ s ++ Js.join s (y :: ys))%string.
    rewrite !is_empty_append, IH. now rewrite !andb_false_r.
Qed.

(** [path.join(dir, name)] for a rooted plain directory and a plain
    name: the drive of [dir], and its components and [name], one
    separator before each. *)
Lemma join_entry (p : Platform) (dir name : string) :
  rooted_plain p dir = true ->
  plain_name p name = true ->
  Path.join p [dir; name]
  = (fst (Path.split_device p dir) ++ Path.sep p
     ++ Js.join (Path.sep p) (Path.components p dir ++ [name]))%string.
Proof.
  unfold rooted_plain, plain_name.
  intros [Hroot Hplain]%andb_true_iff Hname.
  apply andb_true_iff in Hname as [Hname Hfree].
  apply andb_true_iff in Hname as [Hname Hdots].
  apply andb_true_iff in Hname as [Hname Hdot].
  apply negb_true_iff in Hname, Hdot, Hdots.
  assert (Hdir : Js.is_empty dir = false).
  { destruct dir; [|reflexivity]. now destruct p. }
  unfold Path.join. simpl. rewrite Hdir, Hname. simpl.
  destruct dir as [|d0 dir'] eqn:Hd; [discriminate|]. rewrite <- Hd in *.
  destruct name as [|n0 name'] eqn:Hn; [discriminate|]. rewrite <- Hn in *.
  change (Js.join (Path.sep p) [dir; name]) with (dir ++ Path.sep p ++ name)%string.
  unfold Path.normalize.
  rewrite is_empty_append, Hdir. simpl.
  rewrite split_device_app by assumption.
  destruct (Path.split_device p dir) as [device tail] eqn:Hsplit.
  cbn [fst snd] in *.
  assert (Habs : Path.starts_with_sep p (tail ++ Path.sep p ++ name) = true).
  { destruct tail; [discriminate|exact Hroot]. }
  assert (Htrail : Path.ends_with_sep p (tail ++ Path.sep p ++ name) = false).
  { rewrite ends_with_sep_app.
    - rewrite ends_with_sep_app by assumption.
      now apply ends_with_sep_no_sep.
    - rewrite is_empty_append, Hname. apply andb_false_r. }
  rewrite Habs, Htrail. cbn [negb].
  destruct (sep_is_sep p) as (c & Hsep & Hc). rewrite Hsep.
  change (String c "" ++ name)%string with (String c name).
  rewrite split_on_app_sep by assumption.
  rewrite (split_on_free _ name) by assumption.
  unfold Path.normalize_segments.
  rewrite fold_left_app. cbn [fold_left].
  assert (Hcomp : Path.components p dir
                  = List.filter (fun seg => negb (Js.is_empty seg))
                                (Js.split_on (Path.is_sep p) tail)).
  { unfold Path.components. now rewrite Hsplit. }
  rewrite Hcomp in Hplain |- *.
  rewrite fold_push_plain by assumption.
  unfold Path.push_segment. rewrite Hname, Hdot, Hdots. cbn [orb].
  rewrite app_nil_r. cbn [rev]. rewrite rev_involutive.
  rewrite join_last_nonempty by assumption.
  now rewrite append_nil_r.
Qed.

Lemma is_prefix_app (xs ys : list string) : Path.is_prefix xs (xs ++ ys) = true.
Proof.
  induction xs as [|x xs IH]; [reflexivity|].
  simpl. now rewrite String.eqb_refl.
Qed.

Lemma filter_nonempty_id (xs : list string) :
  forallb (fun s => negb (Js.is_empty s)) xs = true ->
  List.filter (fun s => negb (Js.is_empty s)) xs = xs.
Proof.
  induction xs as [|x xs IH]; [reflexivity|].
  simpl. intros [Hx Hxs]%andb_true_iff. rewrite Hx, IH by assumption.
  reflexivity.
Qed.

Lemma forallb_filter_same {A} (f : A -> bool) (xs : list A) :
  forallb f (List.filter f xs) = true.
Proof.
  induction xs as [|x xs IH]; [reflexivity|].
  simpl. destruct (f x) eqn:Hx; simpl; [now rewrite Hx|assumption].
Qed.

Lemma forallb_filter_keeps {A} (f g : A -> bool) (xs : list A) :
  forallb g xs = true -> forallb g (List.filter f xs) = true.
Proof.
  induction xs as [|x xs IH]; [reflexivity|].
  simpl. intros [Hx Hxs]%andb_true_iff.
  destruct (f x); simpl; [rewrite Hx|]; auto.
Qed.

(** The components of [path.join(dir, name)] are those of [dir] and
    then [name]. *)
Lemma components_join_entry (p : Platform) (dir name : string) :
  rooted_plain p dir = true ->
  plain_name p name = true ->
  Path.components p (Path.join p [dir; name]) = Path.components p dir ++ [name]
  /\ Path.split_device p (Path.join p [dir; name])
     = (fst (Path.split_device p dir),
        (Path.sep p
         ++ Js.join (Path.sep p) (Path.components p dir ++ [name]))%string).
Proof.
  intros Hdir Hname. rewrite join_entry by assumption.
  split; [|apply split_device_rebuild].
  unfold Path.components at 1. rewrite split_device_rebuild. cbn [snd].
  destruct (sep_is_sep p) as (c & Hsep & Hc). rewrite Hsep.
  change (String c "" ++ ?b)%string with (String c b).
  cbn [Js.split_on]. rewrite Hc. cbn [List.filter Js.is_empty negb].
  unfold plain_name in Hname.
  apply andb_true_iff in Hname as [Hname Hfree].
  apply andb_true_iff in Hname as [Hname _].
  apply andb_true_iff in Hname as [Hname _].
  rewrite split_on_join.
  - apply filter_nonempty_id. rewrite forallb_app. cbn [forallb].
    rewrite Hname. unfold Path.components.
    now rewrite forallb_filter_same.
  - assumption.
  - now destruct (Path.components p dir).
  - rewrite forallb_app. cbn [forallb].
    rewrite Hfree.
    unfold Path.components.
    rewrite forallb_filter_keeps; [reflexivity|apply split_on_pieces_free].
Qed.

(** So [path.join(dir, name)] is an entry of [dir]. *)
Lemma join_entry_is_entry (p : Platform) (dir name : string) :
  rooted_plain p dir = true ->
  plain_name p name = true ->
  Path.is_entry_of p dir (Path.join p [dir; name]) = true.
Proof.
  intros Hdir Hname.
  destruct (components_join_entry p dir name Hdir Hname) as [Hcomp Hdev].
  unfold Path.is_entry_of, Path.is_under.
  rewrite Hcomp, Hdev. cbn [fst snd].
  rewrite String.eqb_refl, is_prefix_app, length_app. cbn [length].
  unfold rooted_plain in Hdir. apply andb_true_iff in Hdir as [-> _].
  destruct (sep_is_sep p) as (c & -> & Hc).
  change (String c "" ++ ?b)%string with (String c b).
  cbn [Path.starts_with_sep]. rewrite Hc. cbn [Bool.eqb andb].
  rewrite Nat.add_1_r, Nat.eqb_refl, andb_true_r.
  apply Nat.ltb_lt. lia.
Qed.


(** ** The two runners *)

Section Runners.

Variable h : Host.

Lemma deliver_runCommand_data (pre rest : list ChildEvent) :
  forallb is_data pre = true ->
  deliver runCommand_listeners is_settled (pre ++ rest) Pending
  = deliver runCommand_listeners is_settled rest Pending.
Proof.
  induction pre as [|ev pre IH]; intros Hpre; [reflexivity|].
  simpl in Hpre. apply andb_true_iff in Hpre as [Hev Hpre].
  destruct ev; try discriminate; simpl; auto.
Qed.

(** What the listeners of [runCommandWithOutput] have seen after a run of
    data chunks. *)
Lemma deliver_capture_data (pre rest : list ChildEvent) (out err : string) :
  forallb is_data pre = true ->
  deliver runCommandWithOutput_listeners (fun c => is_settled (cap_promise c))
    (pre ++ rest) (mkCapture out err Pending)
  = deliver runCommandWithOutput_listeners (fun c => is_settled (cap_promise c))
      rest (mkCapture (out ++ stdout_of pre)%string
                      (err ++ stderr_of pre)%string Pending).
Proof.
  revert out err.
  induction pre as [|ev pre IH]; intros out err Hpre.
  - simpl. now rewrite !append_nil_r.
  - simpl in Hpre. apply andb_true_iff in Hpre as [Hev Hpre].
    destruct ev; try discriminate; simpl; rewrite IH by assumption; simpl;
      now rewrite ?append_assoc.
Qed.

(** The wait of [runCommand] ends in one of three ways. *)
Lemma deliver_runCommand (evs : list ChildEvent) :
  (exists code,
      In (CloseEvent code) evs
      /\ deliver runCommand_listeners is_settled evs Pending
         = (if code_nonzero code then Rejected (command_failed code)
            else Fulfilled tt, Closed code))
  \/ (existsb is_close evs = false
      /\ deliver runCommand_listeners is_settled evs Pending = (Pending, Silent))
  \/ (exists e,
         In (ErrorEvent e) evs
         /\ deliver runCommand_listeners is_settled evs Pending
            = (Pending, Unhandled e)).
Proof.
  induction evs as [|ev evs IH]; [right; left; split; reflexivity|].
  destruct ev as [d|d|e|code]; simpl.
  - destruct IH as [(c & Hin & ->)|[[Hno ->]|(e & Hin & ->)]];
      [left; exists c|right; left|right; right; exists e]; auto.
  - destruct IH as [(c & Hin & ->)|[[Hno ->]|(e & Hin & ->)]];
      [left; exists c|right; left|right; right; exists e]; auto.
  - right; right. exists e. auto.
  - left. exists code. split; [now left|].
    now destruct (code_nonzero code).
Qed.

(** And the wait of [runCommandWithOutput]: the close arrives after data
    only, or an error arrives first, or the child goes silent. *)
Lemma deliver_capture (evs : list ChildEvent) (out err : string) :
  (exists pre code post,
      evs = pre ++ CloseEvent code :: post
      /\ forallb is_data pre = true
      /\ deliver runCommandWithOutput_listeners
           (fun c => is_settled (cap_promise c)) evs (mkCapture out err Pending)
         = (mkCapture (out ++ stdout_of pre)%string (err ++ stderr_of pre)%string
              (Fulfilled (mkOutput code (out ++ stdout_of pre)%string
                                        (err ++ stderr_of pre)%string)),
            Closed code))
  \/ (exists pre e post,
         evs = pre ++ ErrorEvent e :: post
         /\ forallb is_data pre = true
         /\ deliver runCommandWithOutput_listeners
              (fun c => is_settled (cap_promise c)) evs (mkCapture out err Pending)
            = (mkCapture (out ++ stdout_of pre)%string
                         (err ++ stderr_of pre)%string (Rejected e),
               Resumed))
  \/ (forallb is_data evs = true
      /\ deliver runCommandWithOutput_listeners
           (fun c => is_settled (cap_promise c)) evs (mkCapture out err Pending)
         = (mkCapture (out ++ stdout_of evs)%string
                      (err ++ stderr_of evs)%string Pending,
            Silent)).
Proof.
  destruct (forallb is_data evs) eqn:Hall.
  - right; right. split; [reflexivity|].
    rewrite <- (app_nil_r evs) at 1.
    now rewrite deliver_capture_data by assumption.
  - assert (Hsplit : exists pre ev post,
               evs = pre ++ ev :: post
               /\ forallb is_data pre = true /\ is_data ev = false).
    { clear out err. induction evs as [|ev evs IH]; [discriminate|].
      simpl in Hall. destruct (is_data ev) eqn:Hev.
      - destruct (IH Hall) as (pre & ev' & post & -> & Hpre & Hev').
        exists (ev :: pre), ev', post. simpl. rewrite Hev. auto.
      - exists [], ev, evs. auto. }
    destruct Hsplit as (pre & ev & post & -> & Hpre & Hev).
    rewrite deliver_capture_data by assumption.
    destruct ev as [d|d|e|code]; try discriminate.
    + right; left. exists pre, e, post. repeat split; auto.
      simpl. now destruct post.
    + left. exists pre, code, post. repeat split; auto.
Qed.

Lemma show_code_not_null (z : Z) : pretty z <> "null".
Proof.
  assert (Hgo : forall x s, s <> "null" -> pretty_N_go x s <> "null").
  { intros x. induction (N.lt_wf_0 x) as [x _ IH]. intros s Hs.
    destruct (decide (x = 0)%N) as [->|Hx]; [now rewrite pretty_N_go_0|].
    rewrite pretty_N_go_step by lia.
    apply IH; [apply N.div_lt; lia|].
    unfold pretty_N_char. repeat case_match; discriminate. }
  destruct z as [|x|x]; unfold pretty, pretty_Z; try discriminate.
  unfold pretty, pretty_positive, pretty, pretty_N.
  destruct (decide _); [discriminate|]. now apply Hgo.
Qed.

Lemma show_code_inj (c c' : ExitCode) : show_code c = show_code c' -> c = c'.
Proof.
  destruct c as [z|], c' as [z'|]; simpl; intros Heq.
  - f_equal. now apply (inj pretty).
  - now apply show_code_not_null in Heq.
  - symmetry in Heq. now apply show_code_not_null in Heq.
  - reflexivity.
Qed.

(** The error of a failed command determines the exit code. *)
Lemma command_failed_inj (c c' : ExitCode) :
  command_failed c = command_failed c' -> c = c'.
Proof.
  unfold command_failed. intros [= Heq].
  apply show_code_inj. now apply (inj (String.append _)) in Heq.
Qed.

Lemma code_nonzero_false (c : ExitCode) :
  code_nonzero c = false <-> c = Some 0%Z.
Proof.
  split; [|now intros ->].
  destruct c as [[| |]|]; simpl; congruence.
Qed.

(** C5. When the child of [runCommand] closes with exit code [code]
    (stdio is inherited, so at most data precedes the close), the
    promise is fulfilled exactly when [code] is 0, and is otherwise
    rejected with the error [Command failed with exit code <code>], from
    which the code can be read back.  And in every invocation, a
    promise that is fulfilled has seen a close with code 0, and one that
    is rejected has seen a close with the code its error carries. *)
Theorem runCommand_settles_by_exit_code
    (cmd : string) (args : list string) (w : World)
    (pre post : list ChildEvent) (code : ExitCode) :
  c_events (h_spawn h Inherit cmd args (w_disk w))
    = pre ++ CloseEvent code :: post ->
  forallb is_data pre = true ->
  (fst (runCommand_promise h cmd args w) = Normal (Fulfilled tt)
   <-> code = Some 0%Z)
  /\ (code <> Some 0%Z ->
      fst (runCommand_promise h cmd args w)
      = Normal (Rejected (command_failed code)))
  /\ message (command_failed code)
     = ("Command failed with exit code " ++ show_code code)%string
  /\ (forall code', command_failed code' = command_failed code -> code' = code)
  /\ (forall cmd' args' w' p,
         fst (runCommand_promise h cmd' args' w') = Normal p ->
         p = Pending
         \/ (p = Fulfilled tt
             /\ In (CloseEvent (Some 0%Z))
                   (c_events (h_spawn h Inherit cmd' args' (w_disk w'))))
         \/ (exists exit,
                p = Rejected (command_failed exit)
                /\ code_nonzero exit = true
                /\ In (CloseEvent exit)
                      (c_events (h_spawn h Inherit cmd' args' (w_disk w'))))).
Proof.
  intros Hevs Hpre.
  assert (Hrun : fst (runCommand_promise h cmd args w)
                 = Normal (if code_nonzero code
                           then Rejected (command_failed code)
                           else Fulfilled tt)).
  { unfold runCommand_promise, spawn. rewrite Hevs.
    rewrite deliver_runCommand_data by assumption. simpl.
    now destruct (code_nonzero code). }
  rewrite Hrun. split; [split|split; [|split; [|split]]].
  - destruct (code_nonzero code) eqn:Hc; [discriminate|].
    intros _. now apply code_nonzero_false.
  - intros ->. reflexivity.
  - intros Hne. destruct (code_nonzero code) eqn:Hc; [reflexivity|].
    now apply code_nonzero_false in Hc.
  - reflexivity.
  - intros code'. apply command_failed_inj.
  - clear. intros cmd args w p.
    unfold runCommand_promise, spawn.
    destruct (deliver_runCommand
                (c_events (h_spawn h Inherit cmd args (w_disk w))))
      as [(c & Hin & ->)|[[_ ->]|(e & _ & ->)]]; simpl.
    + intros [= <-]. destruct (code_nonzero c) eqn:Hc.
      * right; right. exists c. auto.
      * apply code_nonzero_false in Hc as ->. right; left. auto.
    + intros [= <-]. now left.
    + discriminate.
Qed.

(** C6. When the child of [runCommandWithOutput] closes with exit code
    [code] after data only, the promise is fulfilled with [code] and
    everything the child wrote to its standard output and standard
    error, whatever [code] is; and the promise is rejected only with the
    error of an [error] event of the child. *)
Theorem runCommandWithOutput_resolves_on_close
    (cmd : string) (args : list string) (w : World)
    (pre post : list ChildEvent) (exit : ExitCode) :
  c_events (h_spawn h Pipe cmd args (w_disk w))
    = pre ++ CloseEvent exit :: post ->
  forallb is_data pre = true ->
  fst (runCommandWithOutput_promise h cmd args w)
    = Normal (Fulfilled {| code := exit;
                           stdout := stdout_of pre;
                           stderr := stderr_of pre |})
  /\ (forall cmd' args' w' e,
         fst (runCommandWithOutput_promise h cmd' args' w') = Normal (Rejected e) ->
         In (ErrorEvent e) (c_events (h_spawn h Pipe cmd' args' (w_disk w')))).
Proof.
  intros Hevs Hpre. split.
  - unfold runCommandWithOutput_promise, spawn, bind. rewrite Hevs.
    rewrite deliver_capture_data by assumption. reflexivity.
  - clear. intros cmd args w e.
    unfold runCommandWithOutput_promise, spawn, bind.
    destruct (deliver_capture
                (c_events (h_spawn h Pipe cmd args (w_disk w))) "" "")
      as [(pre & c & post & Hevs & _ & ->)
         |[(pre & e' & post & Hevs & _ & ->)|[_ ->]]]; simpl;
      try discriminate.
    intros [= <-]. rewrite Hevs. apply in_elt.
Qed.

(** Without a [close] event the promise of [runCommand] stays pending,
    and [runCommand] neither returns nor throws. *)
Lemma runCommand_needs_close (cmd : string) (args : list string) (w : World) :
  existsb is_close (c_events (h_spawn h Inherit cmd args (w_disk w))) = false ->
  (forall p, fst (runCommand_promise h cmd args w) = Normal p -> p = Pending)
  /\ (fst (runCommand h cmd args w) = Halted Hung
      \/ exists e,
           In (ErrorEvent e) (c_events (h_spawn h Inherit cmd args (w_disk w)))
           /\ fst (runCommand h cmd args w) = Halted (Crashed e)).
Proof.
  intros Hno.
  unfold runCommand, runCommand_promise, spawn, bind.
  destruct (deliver_runCommand
              (c_events (h_spawn h Inherit cmd args (w_disk w))))
    as [(c & Hin & ->)|[[_ ->]|(e & Hin & ->)]]; simpl.
  - exfalso. apply not_true_iff_false in Hno. apply Hno.
    apply existsb_exists. exists (CloseEvent c). now split.
  - split; [now intros p [= <-]|now left].
  - split; [discriminate|]. right. exists e. now split.
Qed.

Lemma runCommand_spec (cmd : string) (args : list string) (w : World) :
  runCommand_ends h cmd args w (runCommand h cmd args w).
Proof.
  unfold runCommand, runCommand_promise, spawn, bind.
  destruct (deliver_runCommand
              (c_events (h_spawn h Inherit cmd args (w_disk w))))
    as [(c & Hin & ->)|[[Hno ->]|(e & Hin & ->)]]; simpl.
  - destruct (code_nonzero c) eqn:Hc; simpl.
    + now apply RC_rejected.
    + apply code_nonzero_false in Hc as ->. now apply RC_resolved.
  - now apply RC_hung.
  - now apply RC_crashed.
Qed.

Lemma runCommandWithOutput_spec (cmd : string) (args : list string) (w : World) :
  runCommandWithOutput_ends h cmd args w (runCommandWithOutput h cmd args w).
Proof.
  unfold runCommandWithOutput, runCommandWithOutput_promise, spawn, bind.
  destruct (deliver_capture
              (c_events (h_spawn h Pipe cmd args (w_disk w))) "" "")
    as [(pre & c & post & Hevs & Hpre & ->)
       |[(pre & e & post & Hevs & _ & ->)|[_ ->]]]; simpl.
  - now apply RO_resolved with (post := post).
  - apply RO_rejected. rewrite Hevs. apply in_elt.
  - apply RO_hung.
Qed.

Lemma getPythonPath_spec (w : World) :
  getPythonPath h w =
  match unix_lookup h with
  | Some p => (Normal p, mkWorld (w_disk w) (EExec which_python :: w_trace w))
  | None =>
      let w' := mkWorld (w_disk w)
                        (EExec where_python :: EExec which_python :: w_trace w) in
      match windows_lookup h with
      | Some p => (Normal p, w')
      | None => (Thrown (mkError python_not_found), w')
      end
  end.
Proof.
  unfold getPythonPath, unix_lookup, windows_lookup, try_catch, bind, execSync.
  destruct (h_execSync h which_python) as [out|e]; simpl.
  - destruct (Js.is_empty (Js.trim out)); simpl; [|reflexivity].
    destruct (h_execSync h where_python) as [out'|e']; simpl; [|reflexivity].
    now destruct (Js.is_empty (Js.trim (Js.first_line out'))).
  - destruct (h_execSync h where_python) as [out'|e']; simpl; [|reflexivity].
    now destruct (Js.is_empty (Js.trim (Js.first_line out'))).
Qed.

Lemma cleanup_spec (w : World) :
  try_catch (unlinkSync h (scriptPath h)) (fun _ => ret tt) w
  = (Normal tt,
     mkWorld (after_cleanup h (w_disk w)) (EUnlink (scriptPath h) :: w_trace w)).
Proof.
  unfold try_catch, unlinkSync, after_cleanup, ret.
  destruct (w_disk w !! scriptPath h) eqn:Hfile; simpl.
  - now destruct (h_unlink_denied h (scriptPath h)).
  - rewrite delete_id by assumption.
    now destruct (h_unlink_denied h (scriptPath h)).
Qed.

Lemma downloadEasyOCRModels_spec (py : string) (w : World) :
  download_ends h py w (downloadEasyOCRModels h py w).
Proof.
  unfold downloadEasyOCRModels, try_catch at 1, bind, console, emit.
  cbn [fst snd w_disk w_trace].
  unfold writeFileSync. cbn [w_disk w_trace].
  destruct (h_write_denied h (scriptPath h)) eqn:Hw.
  - exact (DL_not_written h py w
             (mkError ("EACCES: permission denied, open '"
                       ++ scriptPath h ++ "'")) Hw).
  - unfold try_finally.
    change (mkWorld (<[scriptPath h:=downloadScript]> (w_disk w))
              (EWriteFile (scriptPath h) downloadScript
               :: EConsole LLog [AStr "This may take a few minutes on first run..."]
               :: EConsole LLog [AStr (nl ++ "Downloading EasyOCR models...")]
               :: w_trace w))
      with (written h w).
    destruct (runCommandWithOutput_spec py [scriptPath h] (written h w))
      as [exit pre post Hevs Hpre|e Hin|].
    + cbn [code stdout stderr].
      destruct (code_nonzero exit) eqn:Hc; unfold throw; cbn [w_disk w_trace];
        rewrite cleanup_spec.
      * exact (DL_failed h py w exit (stderr_of pre) Hw Hc).
      * apply code_nonzero_false in Hc as ->.
        exact (DL_downloaded h py w (stdout_of pre) Hw).
    + rewrite cleanup_spec. exact (DL_not_started h py w e Hw Hin).
    + exact (DL_hung h py w Hw).
Qed.

End Runners.
(** ** Walking through a run *)

Lemma cuts_complete {A} (keep : A -> bool) (l pre post : list A) (x : A) :
  l = pre ++ x :: post -> keep x = true -> In (pre, x, post) (cuts keep l).
Proof.
  intros -> Hx. induction pre as [|y pre IH]; simpl.
  - rewrite Hx. now left.
  - apply in_or_app. right.
    apply in_map_iff. exists (pre, x, post). now split.
Qed.

Arguments venvPath : simpl never.
Arguments venvPythonPath : simpl never.
Arguments scriptPath : simpl never.
Arguments path_join : simpl never.
Arguments downloadScript : simpl never.
Arguments after_cleanup : simpl never.

(** The disk a child leaves is whatever the host says: a variable from
    here on. *)
Ltac forget_disks :=
  repeat match goal with
         | |- context [c_disk (h_spawn ?h ?io ?c ?a ?d)] =>
             generalize (c_disk (h_spawn h io c a d)); intros ?disk
         end.

(** One step of the walk: the next awaited runner ends in one of its
    ways. *)
Ltac next_step :=
  match goal with
  | |- context [runCommand ?h ?c ?a ?w] =>
      destruct (runCommand_spec h c a w) as [_|? ? _|_|? _]
  | |- context [downloadEasyOCRModels ?h ?p ?w] =>
      destruct (downloadEasyOCRModels_spec h p w)
        as [? ?Hwrite|? ?Hwrite|? ? ?Hwrite ?|? ?Hwrite _|?Hwrite]
  end;
  unfold closed, spawned, written, announced;
  cbn [w_disk w_trace];
  forget_disks.

(** The runs of [main], one goal for each way the script can go. *)
Ltac walk h :=
  unfold run, main, try_catch, bind, start;
  rewrite (getPythonPath_spec h);
  destruct (unix_lookup h) as [?p|] eqn:?Hunix;
    [|destruct (windows_lookup h) as [?p|] eqn:?Hwindows];
  cbn [w_disk w_trace];
  try (unfold detach, setup, try_catch, bind, console, emit, process_exit;
       cbn [w_disk w_trace install_each requirements];
       unfold bind, console, emit, ret;
       cbn [w_disk w_trace];
       repeat next_step);
  try match goal with
      | |- context [if is_win32 h then _ else _] => destruct (is_win32 h) eqn:?Hwin
      end;
  unfold console, emit, process_exit, ret, bind, finish;
  unfold download_error, download_warning, setup_complete, setup_failed;
  cbn [w_disk w_trace r_trace r_outcome r_disk rev app].

(** The places in an explicit trace where a child of the given kind
    closes, one goal for each. *)
Ltac cut_trace H io :=
  apply (cuts_complete (is_closed io)) in H; [|reflexivity];
  cbn [cuts map app fst snd In is_closed] in H;
  first
    [ contradiction
    | decompose [or] H; clear H; try contradiction;
      match goal with
      | Heq : (_, _, _) = (_, _, _) |- _ =>
          injection Heq; clear Heq; intros; subst
      end ].

Lemma existsb_rev {A} (f : A -> bool) (l : list A) :
  existsb f (rev l) = existsb f l.
Proof.
  induction l as [|x l IH]; [reflexivity|].
  simpl. rewrite existsb_app, IH. simpl.
  rewrite orb_false_r. apply orb_comm.
Qed.



Section Runs.

Variable h : Host.

(** C1. In every run, once an installation step rejects (the close of
    an inherited-I/O child carries a non-zero code) exactly two effects
    follow: the error is logged by the handler of [setup], and
    [process.exit(1)].  No child is started after the rejection, and the
    process ends with exit code 1. *)
Theorem install_rejection_is_fatal
    (pre post : list Effect) (cmd : string) (args : list string)
    (code : ExitCode) (disk : Disk) :
  r_trace (run h) = pre ++ EClosed Inherit cmd args code disk :: post ->
  code_nonzero code = true ->
  post = [setup_failed (command_failed code); EExit 1]
  /\ existsb is_spawn post = false
  /\ r_outcome (run h) = Exited 1.
Proof.
  intros Htrace Hcode. revert Htrace.
  walk h; intros Htrace; cut_trace Htrace Inherit; try discriminate;
    repeat split; reflexivity.
Qed.

(** C2. In every run, once the driver script closes with a non-zero
    code, the failure is reported, the temporary script is unlinked, the
    handler of [downloadEasyOCRModels] logs the error and the warning,
    and [setup] goes on to its last lines: the setup-complete message is
    printed and the process ends with exit code 0.  Every installation
    step before it had closed with code 0. *)
Theorem download_failure_is_a_warning
    (pre post : list Effect) (cmd : string) (args : list string)
    (exit : ExitCode) (disk : Disk) :
  r_trace (run h) = pre ++ EClosed Pipe cmd args exit disk :: post ->
  code_nonzero exit = true ->
  (exists err,
      post = [ EConsole LError [AStr "Error downloading models:"; AStr err];
               EUnlink (scriptPath h);
               download_error download_failed;
               download_warning;
               setup_complete;
               EConsole LLog [AStr "To activate the virtual environment, run:"];
               activation_hint h ])
  /\ forallb install_ok pre = true
  /\ r_outcome (run h) = Exited 0.
Proof.
  intros Htrace Hexit. revert Htrace.
  walk h; intros Htrace; cut_trace Htrace Pipe; try discriminate;
    (split; [|split; reflexivity]);
    eexists; unfold activation_hint; rewrite Hwin; reflexivity.
Qed.

(** C9. In every run, when an installation step rejects, the disk the
    process leaves is the disk as the failing child left it: nothing
    after the rejection touches the disk, so whatever the environment
    creation had put there is still there when the process exits with
    code 1. *)
Theorem no_rollback_after_rejection
    (pre post : list Effect) (cmd : string) (args : list string)
    (code : ExitCode) (disk : Disk) :
  r_trace (run h) = pre ++ EClosed Inherit cmd args code disk :: post ->
  code_nonzero code = true ->
  r_disk (run h) = disk
  /\ existsb touches_disk post = false
  /\ r_outcome (run h) = Exited 1.
Proof.
  intros Htrace Hcode. revert Htrace.
  walk h; intros Htrace; cut_trace Htrace Inherit; try discriminate;
    repeat split; reflexivity.
Qed.

Lemma after_cleanup_absent (disk : Disk) :
  h_unlink_denied h (scriptPath h) = false ->
  after_cleanup h disk !! scriptPath h = None.
Proof.
  intros Hfree. unfold after_cleanup. rewrite Hfree. apply lookup_delete_eq.
Qed.

(** C3, as the script has it.  When the temporary script was written,
    the model-download step never throws: it completes, or waits for
    ever for a child that neither closes nor fails to start.  When it
    completes, on success and on failure of the download alike, the
    unlink of the script was attempted, and what is reported after it is
    nothing, or the warning with the error of the download (never the
    error of the unlink).  The script is gone from the disk provided the
    host did not refuse the unlink; when it did, the disk is as the
    child left it. *)
Theorem temporary_script_cleanup (py : string) (w : World) :
  h_write_denied h (scriptPath h) = false ->
  (fst (downloadEasyOCRModels h py w) = Normal tt
   \/ fst (downloadEasyOCRModels h py w) = Halted Hung)
  /\ (fst (downloadEasyOCRModels h py w) = Normal tt ->
      (exists reported before,
          w_trace (snd (downloadEasyOCRModels h py w))
          = reported ++ EUnlink (scriptPath h) :: before
          /\ existsb touches_disk reported = false
          /\ (reported = []
              \/ reported = [download_warning; download_error download_failed]
              \/ exists e,
                   reported = [download_warning; download_error e]
                   /\ In (ErrorEvent e)
                         (c_events (h_spawn h Pipe py [scriptPath h]
                                      (w_disk (written h w))))))
      /\ (h_unlink_denied h (scriptPath h) = false ->
          w_disk (snd (downloadEasyOCRModels h py w)) !! scriptPath h = None)
      /\ (h_unlink_denied h (scriptPath h) = true ->
          w_disk (snd (downloadEasyOCRModels h py w))
          = c_disk (h_spawn h Pipe py [scriptPath h] (w_disk (written h w))))).
Proof.
  intros Hwritten.
  assert (Hkept : forall disk,
             h_unlink_denied h (scriptPath h) = true ->
             after_cleanup h disk = disk).
  { intros disk Hdenied. unfold after_cleanup. now rewrite Hdenied. }
  destruct (downloadEasyOCRModels_spec h py w)
    as [e Hdenied|out _|exit err _ Hexit|e _ Hin|_];
    cbn [fst snd w_disk w_trace].
  - congruence.
  - split; [now left|]. intros _. split; [|split].
    + exists [], (EConsole LLog [AStr "EasyOCR models setup complete!"]
                  :: EConsole LLog [AStr out]
                  :: w_trace (closed h Pipe py [scriptPath h] (Some 0%Z)
                                (written h w))).
      repeat split; auto.
    + apply after_cleanup_absent.
    + apply Hkept.
  - split; [now left|]. intros _. split; [|split].
    + exists [download_warning; download_error download_failed],
        (EConsole LError [AStr "Error downloading models:"; AStr err]
         :: w_trace (closed h Pipe py [scriptPath h] exit (written h w))).
      repeat split; auto.
    + apply after_cleanup_absent.
    + apply Hkept.
  - split; [now left|]. intros _. split; [|split].
    + exists [download_warning; download_error e],
        (w_trace (spawned h Pipe py [scriptPath h] (written h w))).
      repeat split; eauto.
    + apply after_cleanup_absent.
    + apply Hkept.
  - split; [now right|]. discriminate.
Qed.

(** C7. [getPythonPath] runs the Unix lookup [which python3 || which
    python] first and returns its trimmed output; only when that command
    fails or prints nothing it runs the Windows lookup [where python]
    and returns the first line of its output, trimmed; when that fails
    or is empty too it throws the not-found error.  In that last case
    the whole run consists of the two lookups, the error message and
    [process.exit(1)]: no child is started and the disk is untouched. *)
Theorem getPythonPath_lookup_order (w : World) :
  getPythonPath h w =
    match unix_lookup h with
    | Some python =>
        (Normal python, mkWorld (w_disk w) (EExec which_python :: w_trace w))
    | None =>
        match windows_lookup h with
        | Some python =>
            (Normal python,
             mkWorld (w_disk w)
                     (EExec where_python :: EExec which_python :: w_trace w))
        | None =>
            (Thrown (mkError python_not_found),
             mkWorld (w_disk w)
                     (EExec where_python :: EExec which_python :: w_trace w))
        end
    end
  /\ (unix_lookup h = None -> windows_lookup h = None ->
      run h = mkRun (Exited 1) not_found_trace (h_disk h)
      /\ spawns (r_trace (run h)) = []).
Proof.
  split; [apply getPythonPath_spec|].
  intros Hunix Hwindows.
  unfold run, main, try_catch, bind, start.
  rewrite getPythonPath_spec, Hunix, Hwindows.
  split; reflexivity.
Qed.


(** C4, as the script has it.  Both paths are built from the directory
    of the script, not from the working directory of the process: with
    the same children, a run is the same from every working directory;
    the only directory handed to the [venv] module is
    [path.join(__dirname, 'venv')]; the only file written or unlinked
    is [path.join(__dirname, 'download_models_temp.py')]; and for a
    rooted plain [__dirname] the first lies below that directory and the
    second is an entry of it, so the environment is created under the
    directory of the script and the temporary file sits alongside the
    script. *)
Theorem paths_hang_off_the_script_directory :
  rooted_plain (flavour h) (h_dirname h) = true ->
  (forall cwd, run (with_cwd cwd h) = run h)
  /\ Forall (fun target => target = venvPath h)
            (created_envs (r_trace (run h)))
  /\ Forall (fun path => path = scriptPath h)
            (files_written (r_trace (run h)) ++ files_unlinked (r_trace (run h)))
  /\ Path.is_under (flavour h) (h_dirname h) (venvPath h) = true
  /\ Path.is_entry_of (flavour h) (h_dirname h) (scriptPath h) = true.
Proof.
  intros Hdir. split; [|split; [|split; [|split]]].
  - intros cwd. destruct h. reflexivity.
  - walk h; simpl; repeat constructor.
  - walk h; simpl; repeat constructor.
  - assert (Hentry : Path.is_entry_of (flavour h) (h_dirname h) (venvPath h) = true).
    { apply join_entry_is_entry; [assumption|]. now destruct (flavour h). }
    unfold Path.is_entry_of in Hentry. now apply andb_true_iff in Hentry.
  - apply join_entry_is_entry; [assumption|]. now destruct (flavour h).
Qed.

End Runs.

(** ** More about the pieces of the script *)

(** *** [String.prototype.trim] *)

Lemma trimStart_head (s : string) :
  match Js.trimStart s with
  | String c _ => Js.is_white c = false
  | EmptyString => True
  end.
Proof.
  induction s as [|c s IH]; [exact I|].
  simpl. destruct (Js.is_white c) eqn:Hc; [exact IH|exact Hc].
Qed.

Lemma trimStart_fixed (c : ascii) (s : string) :
  Js.is_white c = false -> Js.trimStart (String c s) = String c s.
Proof. intros Hc. simpl. now rewrite Hc. Qed.

Lemma trimEnd_idempotent (s : string) : Js.trimEnd (Js.trimEnd s) = Js.trimEnd s.
Proof.
  induction s as [|c s IH]; [reflexivity|].
  simpl. destruct (Js.trimEnd s) as [|c' t] eqn:Hs.
  - destruct (Js.is_white c) eqn:Hc; [reflexivity|].
    simpl. now rewrite Hc.
  - change (Js.trimEnd (String c (String c' t)))
      with (match Js.trimEnd (String c' t) with
            | EmptyString =>
                if Js.is_white c then EmptyString else String c EmptyString
            | t' => String c t'
            end).
    now rewrite IH.
Qed.

Lemma trimEnd_keeps_head (c : ascii) (s : string) :
  Js.is_white c = false ->
  exists t, Js.trimEnd (String c s) = String c t.
Proof.
  intros Hc. simpl. destruct (Js.trimEnd s); rewrite ?Hc; eauto.
Qed.

(** Trimming twice is trimming once, and what is trimmed does not start
    with white space. *)
Lemma trim_idempotent (s : string) : Js.trim (Js.trim s) = Js.trim s.
Proof.
  unfold Js.trim.
  pose proof (trimStart_head s) as Hhead.
  destruct (Js.trimStart s) as [|c s'] eqn:Hs; [reflexivity|].
  destruct (trimEnd_keeps_head c s' Hhead) as [t Ht].
  rewrite Ht, trimStart_fixed by assumption.
  rewrite <- Ht. apply trimEnd_idempotent.
Qed.

Lemma free_of_trimStart (f : ascii -> bool) (s : string) :
  free_of f s = true -> free_of f (Js.trimStart s) = true.
Proof.
  induction s as [|c s IH]; [reflexivity|].
  intros Hs. simpl. destruct (Js.is_white c); [|exact Hs].
  simpl in Hs. apply andb_true_iff in Hs as [_ Hs]. now apply IH.
Qed.

Lemma free_of_trimEnd (f : ascii -> bool) (s : string) :
  free_of f s = true -> free_of f (Js.trimEnd s) = true.
Proof.
  induction s as [|c s IH]; [reflexivity|].
  simpl. intros [Hc Hs]%andb_true_iff. specialize (IH Hs).
  destruct (Js.trimEnd s) as [|c' t].
  - destruct (Js.is_white c); [reflexivity|]. simpl. now rewrite Hc.
  - simpl in *. now rewrite Hc.
Qed.

Lemma first_line_free (s : string) :
  free_of (Ascii.eqb Js.newline) (Js.first_line s) = true.
Proof.
  unfold Js.first_line.
  pose proof (split_on_pieces_free (Ascii.eqb Js.newline) s) as Hfree.
  destruct (Js.split_on (Ascii.eqb Js.newline) s) as [|x xs]; [reflexivity|].
  simpl in *. now apply andb_true_iff in Hfree as [Hx _].
Qed.

(** The effects on top of the trace [t] in the trace [l]. *)
Ltac effects_before l t :=
  lazymatch l with
  | t => constr:(@nil Effect)
  | ?x :: ?l' => let r := effects_before l' t in constr:(x :: r)
  end.

Section MoreAboutThePieces.

Variable h : Host.

(** X1. Whatever [getPythonPath] returns is not empty and carries no
    white space at its ends (trimming it again changes nothing); a path
    that comes from the Windows lookup is a single line. *)
Theorem getPythonPath_returns_a_clean_path (w : World) (python : string) :
  fst (getPythonPath h w) = Normal python ->
  Js.is_empty python = false
  /\ Js.trim python = python
  /\ (unix_lookup h = None ->
      free_of (Ascii.eqb Js.newline) python = true).
Proof.
  rewrite getPythonPath_spec. unfold unix_lookup, windows_lookup.
  destruct (h_execSync h which_python) as [out|e].
  - destruct (Js.is_empty (Js.trim out)) eqn:Hout.
    + destruct (h_execSync h where_python) as [out'|e']; [|discriminate].
      destruct (Js.is_empty (Js.trim (Js.first_line out'))) eqn:Hout';
        [discriminate|].
      intros [= <-]. split; [assumption|]. split; [apply trim_idempotent|].
      intros _. apply free_of_trimEnd, free_of_trimStart, first_line_free.
    + intros [= <-]. split; [assumption|]. split; [apply trim_idempotent|].
      discriminate.
  - destruct (h_execSync h where_python) as [out'|e']; [|discriminate].
    destruct (Js.is_empty (Js.trim (Js.first_line out'))) eqn:Hout';
      [discriminate|].
    intros [= <-]. split; [assumption|]. split; [apply trim_idempotent|].
    intros _. apply free_of_trimEnd, free_of_trimStart, first_line_free.
Qed.

Lemma after_cleanup_other (disk : Disk) (q : string) :
  String.eqb q (scriptPath h) = false ->
  after_cleanup h disk !! q = disk !! q.
Proof.
  intros Hq%String.eqb_neq. unfold after_cleanup.
  destruct (h_unlink_denied h (scriptPath h)); [reflexivity|].
  apply lookup_delete_ne. congruence.
Qed.

(** X2. The model-download step leaves every file but its temporary
    script as it finds it: apart from that script, the disk after the
    step is the disk the driver script left, or the disk before the
    step when the script could not be written. *)
Theorem download_step_touches_only_its_script
    (py : string) (w : World) (q : string) :
  String.eqb q (scriptPath h) = false ->
  w_disk (snd (downloadEasyOCRModels h py w)) !! q
  = (if h_write_denied h (scriptPath h) then w_disk w
     else c_disk (h_spawn h Pipe py [scriptPath h]
                    (<[scriptPath h := downloadScript]> (w_disk w)))) !! q.
Proof.
  intros Hq.
  destruct (downloadEasyOCRModels_spec h py w)
    as [e ->|out ->|exit err -> _|e -> _| ->];
    unfold closed, spawned, written; cbn [snd w_disk];
    rewrite ?after_cleanup_other by assumption; reflexivity.
Qed.

(** When [runCommandWithOutput] waits for ever, its child has emitted
    data only. *)
Lemma runCommandWithOutput_hangs (cmd : string) (args : list string) (w : World) :
  fst (runCommandWithOutput h cmd args w) = Halted Hung ->
  forallb is_data (c_events (h_spawn h Pipe cmd args (w_disk w))) = true.
Proof.
  unfold runCommandWithOutput, runCommandWithOutput_promise, spawn, bind.
  destruct (deliver_capture
              (c_events (h_spawn h Pipe cmd args (w_disk w))) "" "")
    as [(pre & c & post & Hevs & Hpre & ->)
       |[(pre & e & post & Hevs & _ & ->)|[Hall ->]]]; simpl;
    try discriminate.
  intros _. exact Hall.
Qed.

(** X3. The model-download step is never fatal: on every host it
    completes normally or waits for ever; it neither throws nor calls
    [process.exit].  It waits for ever only when the script was written
    and the driver script emits nothing but data: no close and no
    error. *)
Theorem download_step_is_never_fatal (py : string) (w : World) :
  (fst (downloadEasyOCRModels h py w) = Normal tt
   \/ fst (downloadEasyOCRModels h py w) = Halted Hung)
  /\ (exists delta,
         w_trace (snd (downloadEasyOCRModels h py w)) = delta ++ w_trace w
         /\ existsb is_exit delta = false)
  /\ (fst (downloadEasyOCRModels h py w) = Halted Hung ->
      h_write_denied h (scriptPath h) = false
      /\ forallb is_data
           (c_events (h_spawn h Pipe py [scriptPath h] (w_disk (written h w))))
         = true).
Proof.
  split; [|split].
  - destruct (downloadEasyOCRModels_spec h py w); auto.
  - destruct (downloadEasyOCRModels_spec h py w);
      unfold closed, spawned, written, announced; cbn [snd w_disk w_trace];
      match goal with
      | |- exists delta, ?l = delta ++ ?t /\ _ =>
          let d := effects_before l t in exists d
      end;
      split; reflexivity.
  - unfold downloadEasyOCRModels, try_catch at 1, bind, console, emit.
    cbn [fst snd w_disk w_trace].
    unfold writeFileSync. cbn [w_disk w_trace].
    destruct (h_write_denied h (scriptPath h)) eqn:Hw; [discriminate|].
    unfold try_finally.
    change (mkWorld (<[scriptPath h:=downloadScript]> (w_disk w))
              (EWriteFile (scriptPath h) downloadScript
               :: EConsole LLog [AStr "This may take a few minutes on first run..."]
               :: EConsole LLog [AStr (nl ++ "Downloading EasyOCR models...")]
               :: w_trace w))
      with (written h w).
    pose proof (runCommandWithOutput_hangs py [scriptPath h] (written h w))
      as Hhangs.
    destruct (runCommandWithOutput h py [scriptPath h] (written h w))
      as [[result|e|o] w'].
    + destruct (code_nonzero (code result)); unfold throw;
        cbn [w_disk w_trace]; rewrite cleanup_spec; discriminate.
    + rewrite cleanup_spec. discriminate.
    + cbn [fst] in *. intros [= ->]. split; [reflexivity|]. now apply Hhangs.
Qed.

(** X4. In [runCommandWithOutput] the first settlement wins: when the
    child emits [error] before it closes, the promise is rejected with
    that error and the caller resumes at once, whatever the child emits
    afterwards, a close with code 0 included; the output gathered so far
    is dropped. *)
Theorem error_before_close_rejects
    (cmd : string) (args : list string) (w : World)
    (pre post : list ChildEvent) (e : JsError) :
  c_events (h_spawn h Pipe cmd args (w_disk w)) = pre ++ ErrorEvent e :: post ->
  forallb is_data pre = true ->
  fst (runCommandWithOutput_promise h cmd args w) = Normal (Rejected e)
  /\ runCommandWithOutput h cmd args w = (Thrown e, spawned h Pipe cmd args w).
Proof.
  intros Hevs Hpre.
  unfold runCommandWithOutput, runCommandWithOutput_promise, spawn, bind.
  rewrite Hevs, deliver_capture_data by assumption.
  simpl. destruct post; split; reflexivity.
Qed.



End MoreAboutThePieces.

(** ** More about paths *)

Lemma join_nonempty (s : string) (parts : list string) :
  existsb (fun x => negb (Js.is_empty x)) parts = true ->
  Js.is_empty (Js.join s parts) = false.
Proof.
  induction parts as [|x [|y ys] IH]; [discriminate| |].
  - simpl. rewrite orb_false_r. now intros ->%negb_true_iff.
  - intros Hsome.
    change (Js.join s (x :: y :: ys)) with (x ++ s ++ Js.join s (y :: ys))%string.
    rewrite !is_empty_append.
    destruct (Js.is_empty x) eqn:Hx; [|reflexivity].
    cbn [existsb] in Hsome. rewrite Hx in Hsome. cbn [negb orb] in Hsome.
    rewrite IH by exact Hsome. now rewrite andb_false_r.
Qed.

Lemma plain_names_nonempty (p : Platform) (names : list string) :
  forallb (plain_name p) names = true ->
  forallb (fun x => negb (Js.is_empty x)) names = true.
Proof.
  induction names as [|n ns IH]; [reflexivity|].
  cbn [forallb]. intros [Hn Hns]%andb_true_iff. rewrite IH by assumption.
  unfold plain_name in Hn.
  apply andb_true_iff in Hn as [Hn _]. apply andb_true_iff in Hn as [Hn _].
  apply andb_true_iff in Hn as [Hn _]. now rewrite Hn.
Qed.

Lemma plain_names_free (p : Platform) (names : list string) :
  forallb (plain_name p) names = true ->
  forallb (free_of (Path.is_sep p)) names = true.
Proof.
  induction names as [|n ns IH]; [reflexivity|].
  cbn [forallb]. intros [Hn Hns]%andb_true_iff. rewrite IH by assumption.
  unfold plain_name in Hn. apply andb_true_iff in Hn as [_ Hn]. now rewrite Hn.
Qed.

Lemma plain_names_no_dots (p : Platform) (names : list string) :
  forallb (plain_name p) names = true ->
  forallb (fun seg => negb (String.eqb seg ".") && negb (String.eqb seg ".."))
          names = true.
Proof.
  induction names as [|n ns IH]; [reflexivity|].
  cbn [forallb]. intros [Hn Hns]%andb_true_iff. rewrite IH by assumption.
  unfold plain_name in Hn.
  apply andb_true_iff in Hn as [Hn _]. apply andb_true_iff in Hn as [Hn Hdots].
  apply andb_true_iff in Hn as [_ Hdot]. now rewrite Hdot, Hdots.
Qed.

Lemma join_plain_no_trailing_sep (p : Platform) (names : list string) :
  names <> [] ->
  forallb (plain_name p) names = true ->
  Path.ends_with_sep p (Js.join (Path.sep p) names) = false.
Proof.
  induction names as [|n [|n' ns] IH]; intros Hne Hplain; [contradiction| |].
  - cbn [Js.join]. apply ends_with_sep_no_sep.
    apply plain_names_free in Hplain. cbn [forallb] in Hplain.
    now apply andb_true_iff in Hplain as [Hn _].
  - change (Js.join (Path.sep p) (n :: n' :: ns))
      with (n ++ Path.sep p ++ Js.join (Path.sep p) (n' :: ns))%string.
    assert (Hrest : forallb (plain_name p) (n' :: ns) = true).
    { change (forallb (plain_name p) (n :: n' :: ns))
        with (plain_name p n && forallb (plain_name p) (n' :: ns)) in Hplain.
      now apply andb_true_iff in Hplain as [_ Hrest]. }
    assert (Hjoin : Js.is_empty (Js.join (Path.sep p) (n' :: ns)) = false).
    { apply join_nonempty. apply plain_names_nonempty in Hrest.
      cbn [forallb existsb] in *.
      apply andb_true_iff in Hrest as [-> _]. reflexivity. }
    rewrite ends_with_sep_app
      by (rewrite is_empty_append, Hjoin; apply andb_false_r).
    rewrite ends_with_sep_app by assumption.
    apply IH; [discriminate|assumption].
Qed.

(** [path.join(dir, name1, ..., nameN)] for a rooted plain directory and
    plain names: the drive of [dir], its components and the names. *)
Lemma join_entries (p : Platform) (dir : string) (names : list string) :
  rooted_plain p dir = true ->
  names <> [] ->
  forallb (plain_name p) names = true ->
  Path.join p (dir :: names)
  = (fst (Path.split_device p dir) ++ Path.sep p
     ++ Js.join (Path.sep p) (Path.components p dir ++ names))%string.
Proof.
  intros Hdir Hne Hnames.
  pose proof Hdir as Hdir'. unfold rooted_plain in Hdir'.
  apply andb_true_iff in Hdir' as [Hroot Hplain].
  assert (Hnonempty : Js.is_empty dir = false).
  { destruct dir; [|reflexivity]. now destruct p. }
  pose proof (plain_names_nonempty p names Hnames) as Hfull.
  unfold Path.join. cbn [List.filter]. rewrite Hnonempty. cbn [negb].
  rewrite filter_nonempty_id by assumption.
  destruct names as [|n ns] eqn:Hn; [contradiction|]. rewrite <- Hn in *.
  assert (Hjoined : Js.join (Path.sep p) (dir :: names)
                    = (dir ++ Path.sep p ++ Js.join (Path.sep p) names)%string)
    by (now rewrite Hn).
  rewrite Hjoined.
  assert (Hbody : Js.is_empty (Js.join (Path.sep p) names) = false).
  { apply join_nonempty. rewrite Hn in *. cbn [forallb existsb] in *.
    apply andb_true_iff in Hfull as [-> _]. reflexivity. }
  unfold Path.normalize.
  rewrite is_empty_append, Hnonempty. cbn [andb].
  rewrite split_device_app by assumption.
  destruct (Path.split_device p dir) as [device tail] eqn:Hsplit.
  cbn [fst snd] in *.
  assert (Habs : Path.starts_with_sep p
                   (tail ++ Path.sep p ++ Js.join (Path.sep p) names) = true).
  { destruct tail; [discriminate|exact Hroot]. }
  assert (Htrail : Path.ends_with_sep p
                     (tail ++ Path.sep p ++ Js.join (Path.sep p) names) = false).
  { rewrite ends_with_sep_app
      by (rewrite is_empty_append, Hbody; apply andb_false_r).
    rewrite ends_with_sep_app by assumption.
    now apply join_plain_no_trailing_sep. }
  rewrite Habs, Htrail. cbn [negb].
  destruct (sep_is_sep p) as (c & Hsep & Hc). rewrite Hsep.
  change (String c "" ++ Js.join (String c "") names)%string
    with (String c (Js.join (String c "") names)).
  rewrite split_on_app_sep by assumption.
  rewrite (split_on_join (Path.is_sep p) c names)
    by (auto using plain_names_free).
  unfold Path.normalize_segments.
  rewrite fold_left_app.
  assert (Hcomp : Path.components p dir
                  = List.filter (fun seg => negb (Js.is_empty seg))
                                (Js.split_on (Path.is_sep p) tail)).
  { unfold Path.components. now rewrite Hsplit. }
  rewrite Hcomp in Hplain |- *.
  rewrite (fold_push_plain false (Js.split_on (Path.is_sep p) tail))
    by assumption.
  rewrite fold_push_plain
    by (rewrite filter_nonempty_id by assumption;
        now apply plain_names_no_dots with (p := p)).
  rewrite filter_nonempty_id by assumption.
  rewrite app_nil_r, rev_app_distr, !rev_involutive.
  rewrite join_nonempty.
  - now rewrite append_nil_r.
  - rewrite existsb_app. rewrite Hn in Hfull |- *.
    cbn [forallb existsb] in *.
    apply andb_true_iff in Hfull as [-> _]. cbn [orb]. apply orb_true_r.
Qed.

(** Their components, and their drive. *)
Lemma components_join_entries (p : Platform) (dir : string) (names : list string) :
  rooted_plain p dir = true ->
  names <> [] ->
  forallb (plain_name p) names = true ->
  Path.components p (Path.join p (dir :: names)) = Path.components p dir ++ names
  /\ Path.split_device p (Path.join p (dir :: names))
     = (fst (Path.split_device p dir),
        (Path.sep p ++ Js.join (Path.sep p) (Path.components p dir ++ names))%string).
Proof.
  intros Hdir Hne Hnames. rewrite join_entries by assumption.
  split; [|apply split_device_rebuild].
  unfold Path.components at 1. rewrite split_device_rebuild. cbn [snd].
  destruct (sep_is_sep p) as (c & Hsep & Hc). rewrite Hsep.
  change (String c "" ++ ?b)%string with (String c b).
  cbn [Js.split_on]. rewrite Hc. cbn [List.filter Js.is_empty negb].
  rewrite split_on_join.
  - apply filter_nonempty_id. rewrite forallb_app.
    rewrite (plain_names_nonempty p names) by assumption.
    unfold Path.components. now rewrite forallb_filter_same.
  - assumption.
  - destruct (Path.components p dir); [|discriminate].
    now destruct names.
  - rewrite forallb_app. rewrite (plain_names_free p names) by assumption.
    unfold Path.components.
    rewrite forallb_filter_keeps; [reflexivity|apply split_on_pieces_free].
Qed.

(** An entry of a rooted plain directory is rooted and plain. *)
Lemma rooted_plain_join_entry (p : Platform) (dir name : string) :
  rooted_plain p dir = true ->
  plain_name p name = true ->
  rooted_plain p (Path.join p [dir; name]) = true.
Proof.
  intros Hdir Hname.
  destruct (components_join_entry p dir name Hdir Hname) as [Hcomp Hdev].
  unfold rooted_plain. rewrite Hcomp, Hdev. cbn [snd].
  destruct (sep_is_sep p) as (c & -> & Hc).
  change (String c "" ++ ?b)%string with (String c b).
  cbn [Path.starts_with_sep]. rewrite Hc. cbn [andb].
  rewrite forallb_app. cbn [forallb].
  unfold rooted_plain in Hdir. apply andb_true_iff in Hdir as [_ ->].
  unfold plain_name in Hname.
  apply andb_true_iff in Hname as [Hname _].
  apply andb_true_iff in Hname as [Hname ->].
  apply andb_true_iff in Hname as [_ ->]. reflexivity.
Qed.

(** ** More about runs *)

(** A string is not the string it differs from. *)
Ltac differ H :=
  apply String.eqb_eq in H; vm_compute in H; discriminate H.

Section MoreAboutRuns.

Variable h : Host.

(** X6. When the temporary script cannot be written, the model
    download does not take place: no driver script is started and no
    unlink is attempted; and once the write was attempted the user gets
    the warning and the process ends with exit code 0 all the same. *)
Theorem unwritable_script_skips_the_download :
  h_write_denied h (scriptPath h) = true ->
  existsb is_pipe_spawn (r_trace (run h)) = false
  /\ files_unlinked (r_trace (run h)) = []
  /\ (files_written (r_trace (run h)) = [scriptPath h] ->
      existsb is_warning (r_trace (run h)) = true
      /\ r_outcome (run h) = Exited 0).
Proof.
  intros Hdenied.
  walk h; try congruence;
    (split; [reflexivity|split; [reflexivity|]]);
    cbn [files_written]; first [discriminate|intros _; split; reflexivity].
Qed.

(** X7. A run ends in one of four ways.  With exit code 0, and then its
    last effect is the activation hint; with exit code 1, and then its
    last effect is the call of [process.exit(1)]; waiting for ever for
    the child it started last; or taken down by an [error] event of the
    inherited-I/O child it started last.  No other exit code occurs,
    and a rejection of [setup] never goes unhandled. *)
Theorem run_ends_in_one_of_four_ways :
  match r_outcome (run h) with
  | Exited c =>
      (c = 0%Z /\ last (r_trace (run h)) = Some (activation_hint h))
      \/ (c = 1%Z /\ last (r_trace (run h)) = Some (EExit 1))
  | Hung =>
      exists io cmd args, last (r_trace (run h)) = Some (ESpawn io cmd args)
  | Crashed _ =>
      exists cmd args, last (r_trace (run h)) = Some (ESpawn Inherit cmd args)
  end.
Proof.
  walk h; cbn [last];
    first [ left; split; [reflexivity|];
            unfold activation_hint; rewrite Hwin; reflexivity
          | right; split; reflexivity
          | eexists _, _, _; reflexivity
          | eexists _, _; reflexivity ].
Qed.

(** X8. The message that the setup is complete is printed in exactly
    the runs that end with exit code 0. *)
Theorem setup_complete_means_exit_code_0 :
  In setup_complete (r_trace (run h)) <-> r_outcome (run h) = Exited 0.
Proof.
  walk h; (split; [intros Hin|intros Hexit]);
    try reflexivity; try discriminate Hexit.
  all: try (cbn [In]; repeat (first [left; reflexivity|right])).
  all: cbn [In] in Hin; decompose [or] Hin; clear Hin;
    try contradiction; try discriminate;
    match goal with
    | Heq : EConsole _ [AStr _] = EConsole _ [AStr _] |- _ =>
        injection Heq; clear Heq; intros Heq; differ Heq
    end.
Qed.

Lemma venv_python_parts_plain :
  venv_python_parts h <> []
  /\ forallb (plain_name (flavour h)) (venv_python_parts h) = true.
Proof.
  unfold venv_python_parts, flavour.
  destruct (is_win32 h); split; (discriminate || reflexivity).
Qed.

Lemma venvPythonPath_parts :
  venvPythonPath h = Path.join (flavour h) (venvPath h :: venv_python_parts h).
Proof.
  unfold venvPythonPath, venv_python_parts, path_join.
  now destruct (is_win32 h).
Qed.

(** X10. The interpreter that upgrades pip, runs the installs and the
    driver script is the one of the environment just created: for a
    rooted plain [__dirname] its path lies below the environment
    directory, which lies below [__dirname]; its components are those of
    [__dirname], then [venv], then [bin] and [python], or [Scripts] and
    [python.exe] on Windows. *)
Theorem venv_interpreter_is_inside_the_venv :
  rooted_plain (flavour h) (h_dirname h) = true ->
  Path.is_under (flavour h) (venvPath h) (venvPythonPath h) = true
  /\ Path.is_under (flavour h) (h_dirname h) (venvPythonPath h) = true
  /\ Path.components (flavour h) (venvPythonPath h)
     = Path.components (flavour h) (h_dirname h)
       ++ "venv" :: venv_python_parts h.
Proof.
  intros Hdir.
  assert (Hvenv_name : plain_name (flavour h) "venv" = true)
    by now destruct (flavour h).
  pose proof (rooted_plain_join_entry _ _ _ Hdir Hvenv_name) as Hvenv.
  destruct (components_join_entry _ _ _ Hdir Hvenv_name) as [Hvc Hvd].
  destruct venv_python_parts_plain as [Hne Hparts].
  destruct (components_join_entries _ _ _ Hvenv Hne Hparts) as [Hpc Hpd].
  fold (path_join h [h_dirname h; "venv"]) in Hvenv, Hvc, Hvd, Hpc, Hpd.
  fold (venvPath h) in Hvenv, Hvc, Hvd, Hpc, Hpd.
  rewrite <- venvPythonPath_parts in Hpc, Hpd.
  assert (Hroot : Path.starts_with_sep (flavour h)
                    (snd (Path.split_device (flavour h) (h_dirname h))) = true).
  { unfold rooted_plain in Hdir. now apply andb_true_iff in Hdir as [-> _]. }
  assert (Hsep : forall body,
             Path.starts_with_sep (flavour h) (Path.sep (flavour h) ++ body) = true).
  { intros body. destruct (sep_is_sep (flavour h)) as (c & -> & Hc).
    exact Hc. }
  split; [|split].
  - unfold Path.is_under. rewrite Hpc, Hpd, Hvd. cbn [fst snd].
    repeat (apply andb_true_iff; split).
    + now apply String.eqb_eq.
    + now rewrite !Hsep.
    + apply is_prefix_app.
    + rewrite length_app. apply Nat.ltb_lt.
      destruct (venv_python_parts h); [contradiction|cbn [length]; lia].
  - unfold Path.is_under. rewrite Hpc, Hpd, Hvd, Hvc. cbn [fst snd].
    repeat (apply andb_true_iff; split).
    + now apply String.eqb_eq.
    + now rewrite Hroot, Hsep.
    + rewrite <- app_assoc. apply is_prefix_app.
    + rewrite !length_app. cbn [length]. apply Nat.ltb_lt. lia.
  - rewrite Hpc, Hvc, <- app_assoc. reflexivity.
Qed.

End MoreAboutRuns.


(** ** Runs, by the first signal of each child *)

Lemma first_signal_split (evs : list ChildEvent) :
  forallb is_data (data_prefix evs) = true
  /\ match first_signal evs with
     | Some ev =>
         is_data ev = false /\ exists post, evs = data_prefix evs ++ ev :: post
     | None => evs = data_prefix evs
     end.
Proof.
  induction evs as [|ev evs [IHdata IH]]; [now split|].
  destruct ev as [d|d|e|c]; cbn [first_signal data_prefix forallb is_data andb app].
  - split; [exact IHdata|].
    destruct (first_signal evs) as [ev|].
    + destruct IH as [Hev [post Hpost]]. split; [exact Hev|].
      exists post. now f_equal.
    + now f_equal.
  - split; [exact IHdata|].
    destruct (first_signal evs) as [ev|].
    + destruct IH as [Hev [post Hpost]]. split; [exact Hev|].
      exists post. now f_equal.
    + now f_equal.
  - split; [reflexivity|]. split; [reflexivity|]. now exists evs.
  - split; [reflexivity|]. split; [reflexivity|]. now exists evs.
Qed.

Lemma first_signal_in (evs : list ChildEvent) (ev : ChildEvent) :
  first_signal evs = Some ev -> In ev evs.
Proof.
  intros Hsignal. destruct (first_signal_split evs) as [_ Hsplit].
  rewrite Hsignal in Hsplit. destruct Hsplit as [_ [post ->]].
  apply in_elt.
Qed.

Lemma first_signal_close (evs : list ChildEvent) (c : ExitCode) :
  first_signal evs = Some (CloseEvent c) -> existsb is_close evs = true.
Proof.
  intros Hsignal. apply existsb_exists. exists (CloseEvent c).
  split; [now apply first_signal_in|reflexivity].
Qed.

(** A child without a [close] event signals an [error] or nothing. *)
Lemma first_signal_without_close (evs : list ChildEvent) :
  existsb is_close evs = false ->
  first_signal evs = None \/ exists e, first_signal evs = Some (ErrorEvent e).
Proof.
  intros Hno. destruct (first_signal evs) as [[d|d|e|c]|] eqn:Hsignal; auto.
  - destruct (first_signal_split evs) as [_ Hsplit].
    rewrite Hsignal in Hsplit. now destruct Hsplit.
  - destruct (first_signal_split evs) as [_ Hsplit].
    rewrite Hsignal in Hsplit. now destruct Hsplit.
  - right. now exists e.
  - apply first_signal_close in Hsignal. congruence.
Qed.

Section BySignals.

Variable h : Host.

Lemma runCommand_spec_by (cmd : string) (args : list string) (w : World) :
  runCommand_ends_by h cmd args w (runCommand h cmd args w).
Proof.
  destruct (first_signal (c_events (h_spawn h Inherit cmd args (w_disk w))))
    as [[d|d|e|c]|] eqn:Hsignal;
    destruct (first_signal_split (c_events (h_spawn h Inherit cmd args (w_disk w))))
      as [Hdata Hsplit];
    rewrite Hsignal in Hsplit.
  - now destruct Hsplit.
  - now destruct Hsplit.
  - destruct Hsplit as [_ [post Hevs]].
    replace (runCommand h cmd args w)
      with (Halted (Crashed e) : Completion unit, spawned h Inherit cmd args w).
    + now apply RB_crashed.
    + unfold runCommand, runCommand_promise, spawn, bind, spawned.
      rewrite Hevs at 1.
      now rewrite deliver_runCommand_data by assumption.
  - destruct Hsplit as [_ [post Hevs]].
    destruct (code_nonzero c) eqn:Hc.
    + replace (runCommand h cmd args w)
        with (Thrown (command_failed c) : Completion unit,
              closed h Inherit cmd args c w).
      * now apply RB_rejected.
      * unfold runCommand, runCommand_promise, spawn, bind, closed.
        rewrite Hevs at 1.
        rewrite deliver_runCommand_data by assumption.
        cbn [deliver is_settled notify on_close runCommand_listeners].
        now rewrite Hc.
    + apply code_nonzero_false in Hc as ->.
      replace (runCommand h cmd args w)
        with (Normal tt : Completion unit,
              closed h Inherit cmd args (Some 0%Z) w).
      * now apply RB_resolved.
      * unfold runCommand, runCommand_promise, spawn, bind, closed.
        rewrite Hevs at 1.
        now rewrite deliver_runCommand_data by assumption.
  - replace (runCommand h cmd args w)
      with (Halted Hung : Completion unit, spawned h Inherit cmd args w).
    + now apply RB_hung.
    + unfold runCommand, runCommand_promise, spawn, bind, spawned.
      rewrite <- (app_nil_r (c_events (h_spawn h Inherit cmd args (w_disk w)))) at 1.
      rewrite deliver_runCommand_data; [reflexivity|].
      now rewrite Hsplit.
Qed.

(** [runCommandWithOutput], by the first signal of its child. *)
Lemma runCommandWithOutput_by (cmd : string) (args : list string) (w : World) :
  runCommandWithOutput h cmd args w
  = let evs := c_events (h_spawn h Pipe cmd args (w_disk w)) in
    match first_signal evs with
    | Some (CloseEvent c) =>
        (Normal (mkOutput c (stdout_of (data_prefix evs))
                            (stderr_of (data_prefix evs))),
         closed h Pipe cmd args c w)
    | Some (ErrorEvent e) => (Thrown e, spawned h Pipe cmd args w)
    | _ => (Halted Hung, spawned h Pipe cmd args w)
    end.
Proof.
  cbv zeta.
  destruct (first_signal_split (c_events (h_spawn h Pipe cmd args (w_disk w))))
    as [Hdata Hsplit].
  destruct (first_signal (c_events (h_spawn h Pipe cmd args (w_disk w))))
    as [[d|d|e|c]|] eqn:Hsignal.
  - now destruct Hsplit.
  - now destruct Hsplit.
  - destruct Hsplit as [_ [post Hevs]].
    unfold runCommandWithOutput, runCommandWithOutput_promise, spawn, bind, spawned.
    rewrite Hevs at 1.
    rewrite deliver_capture_data by assumption.
    simpl. now destruct post.
  - destruct Hsplit as [_ [post Hevs]].
    unfold runCommandWithOutput, runCommandWithOutput_promise, spawn, bind, closed.
    rewrite Hevs at 1.
    rewrite deliver_capture_data by assumption.
    reflexivity.
  - unfold runCommandWithOutput, runCommandWithOutput_promise, spawn, bind, spawned.
    rewrite <- (app_nil_r (c_events (h_spawn h Pipe cmd args (w_disk w)))) at 1.
    rewrite deliver_capture_data; [reflexivity|].
    now rewrite Hsplit.
Qed.

Lemma download_spec_by (py : string) (w : World) :
  download_ends_by h py w (downloadEasyOCRModels h py w).
Proof.
  unfold downloadEasyOCRModels, try_catch at 1, bind, console, emit.
  cbn [fst snd w_disk w_trace].
  unfold writeFileSync. cbn [w_disk w_trace].
  destruct (h_write_denied h (scriptPath h)) eqn:Hw.
  - exact (DB_not_written h py w
             (mkError ("EACCES: permission denied, open '"
                       ++ scriptPath h ++ "'")) Hw).
  - unfold try_finally.
    change (mkWorld (<[scriptPath h:=downloadScript]> (w_disk w))
              (EWriteFile (scriptPath h) downloadScript
               :: EConsole LLog [AStr "This may take a few minutes on first run..."]
               :: EConsole LLog [AStr (nl ++ "Downloading EasyOCR models...")]
               :: w_trace w))
      with (written h w).
    rewrite runCommandWithOutput_by. cbv zeta.
    destruct (first_signal_split
                (c_events (h_spawn h Pipe py [scriptPath h] (w_disk (written h w)))))
      as [_ Hsplit].
    destruct (first_signal
                (c_events (h_spawn h Pipe py [scriptPath h] (w_disk (written h w)))))
      as [[d|d|e|c]|] eqn:Hsignal.
    + now destruct Hsplit.
    + now destruct Hsplit.
    + rewrite cleanup_spec. exact (DB_not_started h py w e Hw Hsignal).
    + cbn [code stdout stderr].
      destruct (code_nonzero c) eqn:Hc; unfold throw; cbn [w_disk w_trace];
        rewrite cleanup_spec.
      * exact (DB_failed h py w c Hw Hc Hsignal).
      * apply code_nonzero_false in Hc. subst c.
        exact (DB_downloaded h py w Hw Hsignal).
    + exact (DB_hung h py w Hw Hsignal).
Qed.

End BySignals.

(** One step of the walk that keeps what each child signalled. *)
Ltac next_step_by :=
  match goal with
  | |- context [runCommand ?h ?c ?a ?w] =>
      destruct (runCommand_spec_by h c a w)
        as [?Hsignal|?code ?Hcode ?Hsignal|?Hsignal|?e ?Hsignal]
  | |- context [downloadEasyOCRModels ?h ?p ?w] =>
      destruct (download_spec_by h p w)
        as [? ?Hwrite|?Hwrite ?Hsignal|?code ?Hwrite ?Hcode ?Hsignal
           |?e ?Hwrite ?Hsignal|?Hwrite ?Hsignal]
  end;
  unfold closed, spawned, written, announced;
  repeat match goal with
         | H : context [written] |- _ => unfold written in H
         end;
  cbn [w_disk w_trace] in *;
  forget_disks.

Ltac walk_by h :=
  unfold run, main, try_catch, bind, start;
  rewrite (getPythonPath_spec h);
  destruct (unix_lookup h) as [?p|] eqn:?Hunix;
    [|destruct (windows_lookup h) as [?p|] eqn:?Hwindows];
  cbn [w_disk w_trace];
  try (unfold detach, setup, try_catch, bind, console, emit, process_exit;
       cbn [w_disk w_trace install_each requirements];
       unfold bind, console, emit, ret;
       cbn [w_disk w_trace];
       repeat next_step_by);
  try match goal with
      | |- context [if is_win32 h then _ else _] => destruct (is_win32 h) eqn:?Hwin
      end;
  unfold console, emit, process_exit, ret, bind, finish;
  unfold download_error, download_warning, setup_complete, setup_failed;
  cbn [w_disk w_trace r_trace r_outcome r_disk rev app].

(** The places in an explicit trace where an inherited-I/O child is
    started, one goal for each. *)
Ltac cut_spawn H :=
  apply (cuts_complete is_inherit_spawn) in H; [|reflexivity];
  cbn [cuts map app fst snd In is_inherit_spawn] in H;
  first
    [ contradiction
    | decompose [or] H; clear H; try contradiction;
      match goal with
      | Heq : (_, _, _) = (_, _, _) |- _ =>
          injection Heq; clear Heq; intros; subst
      end ].

Section RunsBySignal.

Variable h : Host.

(** C10. Take any installation child of any run: a child started with
    inherited I/O, on the disk the run has reached.  When it emits no
    [close] (whatever else it emits: a child that cannot be started
    emits only [error]), the promise of that call of [runCommand] is
    still pending when all its events have been delivered, and nothing
    follows the start of the child in the run: the
    handler of [setup] does not run (its message is nowhere in the
    trace) and [process.exit] is not called.  The script waits for ever,
    or it is taken down by an [error] event of that child, for which
    [runCommand] has no listener. *)
Theorem error_event_alone_is_not_fatal
    (pre post : list Effect) (cmd : string) (args : list string) :
  r_trace (run h) = pre ++ ESpawn Inherit cmd args :: post ->
  existsb is_close
    (c_events (h_spawn h Inherit cmd args (disk_after pre (h_disk h)))) = false ->
  fst (deliver runCommand_listeners is_settled
         (c_events (h_spawn h Inherit cmd args (disk_after pre (h_disk h))))
         Pending) = Pending
  /\ (forall tr p,
      fst (runCommand_promise h cmd args
             (mkWorld (disk_after pre (h_disk h)) tr)) = Normal p ->
      p = Pending)
  /\ post = []
  /\ existsb is_setup_failed (r_trace (run h)) = false
  /\ existsb is_exit (r_trace (run h)) = false
  /\ (r_outcome (run h) = Hung
      \/ exists e,
           In (ErrorEvent e)
              (c_events (h_spawn h Inherit cmd args (disk_after pre (h_disk h))))
           /\ r_outcome (run h) = Crashed e).
Proof.
  intros Htrace Hno. split.
  { destruct (deliver_runCommand
                (c_events (h_spawn h Inherit cmd args (disk_after pre (h_disk h)))))
      as [(c & Hin & _)|[[_ ->]|(e & _ & ->)]]; [|reflexivity|reflexivity].
    exfalso. apply not_true_iff_false in Hno. apply Hno.
    apply existsb_exists. exists (CloseEvent c). now split. }
  split.
  { intros tr p.
    now apply (runCommand_needs_close h cmd args
                 (mkWorld (disk_after pre (h_disk h)) tr)). }
  revert Htrace Hno.
  walk_by h; intros Htrace Hno; cut_spawn Htrace;
    cbn [disk_after] in Hno |- *;
    try (exfalso;
         match goal with
         | Hs : first_signal ?evs = Some (CloseEvent ?c) |- _ =>
             generalize (first_signal_close evs c Hs); rewrite Hno; discriminate
         end).
  all: split; [reflexivity|split; [reflexivity|split; [reflexivity|]]].
  all: first [ left; reflexivity
             | right; eexists; split;
               [apply first_signal_in; eassumption|reflexivity] ].
Qed.

(** X9. In every run, once the driver script closes with code 0, the
    close was the first signal of that child, and what the child wrote
    to its standard output before it is what is logged next; then come
    the models-complete line, the unlink of the temporary script and
    the last lines of [setup].  No warning is printed in such a run, the
    process ends with exit code 0, and the disk it leaves is the disk of
    the driver script after the cleanup. *)
Theorem download_success_is_reported
    (pre post : list Effect) (cmd : string) (args : list string) (disk : Disk) :
  r_trace (run h) = pre ++ EClosed Pipe cmd args (Some 0%Z) disk :: post ->
  first_signal
    (c_events (h_spawn h Pipe cmd args
                 (<[scriptPath h := downloadScript]> (disk_after pre (h_disk h)))))
  = Some (CloseEvent (Some 0%Z))
  /\ post
     = [ EConsole LLog
           [AStr (stdout_of
                    (data_prefix
                       (c_events
                          (h_spawn h Pipe cmd args
                             (<[scriptPath h := downloadScript]>
                                (disk_after pre (h_disk h)))))))];
         EConsole LLog [AStr "EasyOCR models setup complete!"];
         EUnlink (scriptPath h);
         setup_complete;
         EConsole LLog [AStr "To activate the virtual environment, run:"];
         activation_hint h ]
  /\ existsb is_warning (r_trace (run h)) = false
  /\ forallb install_ok pre = true
  /\ r_outcome (run h) = Exited 0
  /\ r_disk (run h) = after_cleanup h disk.
Proof.
  intros Htrace. revert Htrace.
  walk_by h; intros Htrace; cut_trace Htrace Pipe; try discriminate.
  all: cbn [disk_after].
  all: split; [assumption|].
  all: split; [unfold activation_hint; rewrite Hwin; reflexivity|].
  all: repeat split; reflexivity.
Qed.

(** X11. The process ends with status 1 in exactly three cases: no
    interpreter was found; an installation step closed with a code other
    than 0; or the last thing the run did was to start an installation
    child whose first signal is an [error] event, which [runCommand]
    does not listen for.  The first two are the calls of
    [process.exit(1)]; the third is the uncaught error of the emitter. *)
Theorem exit_status_1_has_three_causes :
  exit_status (r_outcome (run h)) = Some 1%Z
  <-> (unix_lookup h = None /\ windows_lookup h = None)
      \/ forallb install_ok (r_trace (run h)) = false
      \/ (exists cmd args e,
             last (r_trace (run h)) = Some (ESpawn Inherit cmd args)
             /\ first_signal
                  (c_events (h_spawn h Inherit cmd args
                               (disk_after (r_trace (run h)) (h_disk h))))
                = Some (ErrorEvent e)).
Proof.
  walk_by h;
    cbn [forallb install_ok negb andb last exit_status disk_after];
    repeat match goal with
           | Hcode : code_nonzero _ = true |- _ => rewrite Hcode; clear Hcode
           end;
    cbn [negb andb];
    (split;
     [intros Hexit
     |intros [[Hu Hw]|[Hbad|(cmd & args & e' & Hlast & Hsig)]]]);
    try discriminate; try congruence; auto.
  all: try (right; right; eexists _, _, _; split; [reflexivity|eassumption]).
  all: injection Hlast; intros; subst; congruence.
Qed.

End RunsBySignal.

(** ** The sample hosts, run *)

Example join_posix :
  Path.join Posix ["/opt/node-easyocr"; "venv"; "bin"; "python"]
  = "/opt/node-easyocr/venv/bin/python".
Proof. reflexivity. Qed.

Example join_posix_dots :
  Path.join Posix ["/opt//pkg/./lib/"; ".."; "venv"] = "/opt/pkg/venv".
Proof. reflexivity. Qed.

Example join_win32 :
  Path.join Win32 ["C:\pkg\node-easyocr"; "venv"; "Scripts"; "python.exe"]
  = "C:\pkg\node-easyocr\venv\Scripts\python.exe".
Proof. reflexivity. Qed.

Example trim_example :
  Js.trim (String Js.newline "  /usr/bin/python3 " ++ String Js.newline "")
  = "/usr/bin/python3".
Proof. reflexivity. Qed.

Example run_ok :
  r_outcome (run host_ok) = Exited 0
  /\ spawns (r_trace (run host_ok)) = pipeline host_ok sample_python
  /\ r_disk (run host_ok) = sample_env_disk.
Proof. repeat apply conj; vm_compute; reflexivity. Qed.

Example run_windows :
  fst (getPythonPath host_windows (start host_windows))
    = Normal "C:\Python311\python.exe"
  /\ r_outcome (run host_windows) = Exited 0
  /\ spawns (r_trace (run host_windows))
     = pipeline host_windows "C:\Python311\python.exe"
  /\ venvPythonPath host_windows = "C:\pkg\node-easyocr\venv\Scripts\python.exe"
  /\ Path.is_under Win32 (h_dirname host_windows) (venvPath host_windows) = true
  /\ Path.is_under Win32 (h_cwd host_windows) (venvPath host_windows) = false.
Proof. repeat apply conj; vm_compute; reflexivity. Qed.

Example run_no_python :
  run host_no_python = mkRun (Exited 1) not_found_trace ∅.
Proof. vm_compute. reflexivity. Qed.

Example run_cannot_start :
  run host_cannot_start
  = mkRun (Crashed (mkError "spawn ENOENT"))
      [ EExec which_python;
        EConsole LLog [AStr "Setting up Python environment..."];
        EConsole LLog [AStr "Using Python at: /usr/bin/python3"];
        EConsole LLog [AStr "Creating virtual environment..."];
        ESpawn Inherit sample_python ["-m"; "venv"; "/opt/node-easyocr/venv"] ]
      ∅.
Proof. vm_compute. reflexivity. Qed.

(** The end-to-end scenario of the specification: everything succeeds
    except the second of the three installs. *)
Example run_torch_fails :
  r_outcome (run host_torch_fails) = Exited 1
  /\ spawns (r_trace (run host_torch_fails))
     = firstn 4 (pipeline host_torch_fails sample_python)
  /\ r_disk (run host_torch_fails) = sample_env_disk.
Proof. repeat apply conj; vm_compute; reflexivity. Qed.

(** ** Witnesses *)

Lemma install_rejection_is_fatal_witness :
  skipn 15 (r_trace (run host_torch_fails))
    = [setup_failed (command_failed (Some 2%Z)); EExit 1]
  /\ existsb is_spawn (skipn 15 (r_trace (run host_torch_fails))) = false
  /\ r_outcome (run host_torch_fails) = Exited 1.
Proof.
  apply (install_rejection_is_fatal host_torch_fails
           (firstn 14 (r_trace (run host_torch_fails)))
           (skipn 15 (r_trace (run host_torch_fails)))
           (venvPythonPath host_torch_fails)
           ["-m"; "pip"; "install"; "torch"] (Some 2%Z) sample_env_disk).
  - vm_compute. reflexivity.
  - reflexivity.
Defined.

Lemma download_failure_is_a_warning_witness :
  (exists err,
      skipn 24 (r_trace (run host_download_fails))
      = [ EConsole LError [AStr "Error downloading models:"; AStr err];
          EUnlink (scriptPath host_download_fails);
          download_error download_failed;
          download_warning;
          setup_complete;
          EConsole LLog [AStr "To activate the virtual environment, run:"];
          activation_hint host_download_fails ])
  /\ forallb install_ok (firstn 23 (r_trace (run host_download_fails))) = true
  /\ r_outcome (run host_download_fails) = Exited 0.
Proof.
  apply (download_failure_is_a_warning host_download_fails
           (firstn 23 (r_trace (run host_download_fails)))
           (skipn 24 (r_trace (run host_download_fails)))
           (venvPythonPath host_download_fails)
           [scriptPath host_download_fails] (Some 1%Z)
           (<[scriptPath host_download_fails := downloadScript]> sample_env_disk)).
  - vm_compute. reflexivity.
  - reflexivity.
Defined.

Lemma temporary_script_cleanup_witness :
  fst (downloadEasyOCRModels host_download_fails
         (venvPythonPath host_download_fails) (start host_download_fails))
    = Normal tt
  /\ w_disk (snd (downloadEasyOCRModels host_download_fails
                    (venvPythonPath host_download_fails)
                    (start host_download_fails)))
       !! scriptPath host_download_fails = None.
Proof.
  destruct (temporary_script_cleanup host_download_fails
              (venvPythonPath host_download_fails)
              (start host_download_fails) eq_refl) as [_ Hdone].
  assert (Hcompletes :
            fst (downloadEasyOCRModels host_download_fails
                   (venvPythonPath host_download_fails)
                   (start host_download_fails)) = Normal tt)
    by (vm_compute; reflexivity).
  split; [exact Hcompletes|].
  destruct (Hdone Hcompletes) as (_ & Hgone & _). apply Hgone. reflexivity.
Defined.

Lemma paths_hang_off_the_script_directory_witness :
  (forall cwd, run (with_cwd cwd host_ok) = run host_ok)
  /\ Forall (fun target => target = venvPath host_ok)
            (created_envs (r_trace (run host_ok)))
  /\ Forall (fun path => path = scriptPath host_ok)
            (files_written (r_trace (run host_ok))
             ++ files_unlinked (r_trace (run host_ok)))
  /\ Path.is_under (flavour host_ok) (h_dirname host_ok) (venvPath host_ok) = true
  /\ Path.is_entry_of (flavour host_ok) (h_dirname host_ok) (scriptPath host_ok)
     = true.
Proof.
  apply (paths_hang_off_the_script_directory host_ok). reflexivity.
Defined.

Lemma runCommand_settles_by_exit_code_witness :
  (fst (runCommand_promise host_torch_fails "python"
          ["-m"; "pip"; "install"; "torch"] (start host_torch_fails))
   = Normal (Fulfilled tt) <-> Some 2%Z = Some 0%Z)
  /\ (Some 2%Z <> Some 0%Z ->
      fst (runCommand_promise host_torch_fails "python"
             ["-m"; "pip"; "install"; "torch"] (start host_torch_fails))
      = Normal (Rejected (command_failed (Some 2%Z))))
  /\ message (command_failed (Some 2%Z))
     = ("Command failed with exit code " ++ show_code (Some 2%Z))%string
  /\ (forall code',
         command_failed code' = command_failed (Some 2%Z) -> code' = Some 2%Z).
Proof.
  destruct (runCommand_settles_by_exit_code host_torch_fails "python"
              ["-m"; "pip"; "install"; "torch"] (start host_torch_fails)
              [] [] (Some 2%Z) eq_refl eq_refl)
    as (Hiff & Hrejected & Hmessage & Hcarries & _).
  split; [exact Hiff|].
  split; [exact Hrejected|].
  split; [exact Hmessage|exact Hcarries].
Defined.

Lemma runCommandWithOutput_resolves_on_close_witness :
  fst (runCommandWithOutput_promise host_download_fails "python"
         ["download_models_temp.py"] (start host_download_fails))
  = Normal (Fulfilled
              {| code := Some 1%Z;
                 stdout := "";
                 stderr := "Error downloading models: no route to host" |}).
Proof.
  apply (runCommandWithOutput_resolves_on_close host_download_fails "python"
           ["download_models_temp.py"] (start host_download_fails)
           [StderrData "Error downloading models: no route to host"] []
           (Some 1%Z)); reflexivity.
Defined.

Lemma no_rollback_after_rejection_witness :
  r_disk (run host_torch_fails) = sample_env_disk
  /\ existsb touches_disk (skipn 15 (r_trace (run host_torch_fails))) = false
  /\ r_outcome (run host_torch_fails) = Exited 1.
Proof.
  apply (no_rollback_after_rejection host_torch_fails
           (firstn 14 (r_trace (run host_torch_fails)))
           (skipn 15 (r_trace (run host_torch_fails)))
           (venvPythonPath host_torch_fails)
           ["-m"; "pip"; "install"; "torch"] (Some 2%Z) sample_env_disk).
  - vm_compute. reflexivity.
  - reflexivity.
Defined.

(** ** Where the specification says more than the script does *)

(** C3 as stated fails when the host refuses the unlink: the script was
    written, the download succeeded, the step completed, the unlink was
    attempted as the last effect of the step, and the temporary script
    is still on the disk, also when the process has exited. *)
Lemma temporary_script_survives_refused_unlink :
  h_write_denied host_locked (scriptPath host_locked) = false
  /\ fst (downloadEasyOCRModels host_locked (venvPythonPath host_locked)
            (start host_locked)) = Normal tt
  /\ hd_error (w_trace (snd (downloadEasyOCRModels host_locked
                               (venvPythonPath host_locked)
                               (start host_locked))))
     = Some (EUnlink (scriptPath host_locked))
  /\ w_disk (snd (downloadEasyOCRModels host_locked
                    (venvPythonPath host_locked) (start host_locked)))
       !! scriptPath host_locked = Some downloadScript
  /\ r_outcome (run host_locked) = Exited 0
  /\ r_disk (run host_locked) !! scriptPath host_locked = Some downloadScript.
Proof. repeat apply conj; vm_compute; reflexivity. Qed.

(** C4 as stated fails when the script is not invoked from its own
    directory: the environment is created in the directory of the
    script, which is not below the working directory. *)
Lemma environment_is_not_under_the_working_directory :
  h_cwd host_ok = "/home/user/project"
  /\ created_envs (r_trace (run host_ok)) = ["/opt/node-easyocr/venv"]
  /\ Path.is_under (flavour host_ok) (h_cwd host_ok) "/opt/node-easyocr/venv"
     = false
  /\ Path.is_under (flavour host_ok) (h_dirname host_ok) "/opt/node-easyocr/venv"
     = true.
Proof. repeat apply conj; vm_compute; reflexivity. Qed.

(** ** Witnesses, continued *)

Lemma getPythonPath_returns_a_clean_path_witness :
  Js.is_empty "C:\Python311\python.exe" = false
  /\ Js.trim "C:\Python311\python.exe" = "C:\Python311\python.exe"
  /\ (unix_lookup host_windows = None ->
      free_of (Ascii.eqb Js.newline) "C:\Python311\python.exe" = true).
Proof.
  apply (getPythonPath_returns_a_clean_path host_windows (start host_windows)).
  vm_compute. reflexivity.
Defined.

Lemma download_step_touches_only_its_script_witness :
  w_disk (snd (downloadEasyOCRModels host_ok (venvPythonPath host_ok)
                 (mkWorld sample_env_disk [])))
    !! "/opt/node-easyocr/venv/pyvenv.cfg"
  = Some "home = /usr/bin".
Proof.
  rewrite (download_step_touches_only_its_script host_ok
             (venvPythonPath host_ok) (mkWorld sample_env_disk [])
             "/opt/node-easyocr/venv/pyvenv.cfg" eq_refl).
  vm_compute. reflexivity.
Defined.

Lemma error_before_close_rejects_witness :
  fst (runCommandWithOutput_promise host_driver_cannot_start "python"
         ["download_models_temp.py"] (start host_driver_cannot_start))
  = Normal (Rejected (mkError "spawn EACCES"))
  /\ runCommandWithOutput host_driver_cannot_start "python"
       ["download_models_temp.py"] (start host_driver_cannot_start)
     = (Thrown (mkError "spawn EACCES"),
        spawned host_driver_cannot_start Pipe "python"
          ["download_models_temp.py"] (start host_driver_cannot_start)).
Proof.
  apply (error_before_close_rejects host_driver_cannot_start "python"
           ["download_models_temp.py"] (start host_driver_cannot_start)
           [] [CloseEvent (Some (-13)%Z)] (mkError "spawn EACCES"));
    reflexivity.
Defined.

Lemma unwritable_script_skips_the_download_witness :
  existsb is_pipe_spawn (r_trace (run host_readonly)) = false
  /\ files_unlinked (r_trace (run host_readonly)) = []
  /\ (files_written (r_trace (run host_readonly)) = [scriptPath host_readonly] ->
      existsb is_warning (r_trace (run host_readonly)) = true
      /\ r_outcome (run host_readonly) = Exited 0).
Proof.
  apply (unwritable_script_skips_the_download host_readonly). reflexivity.
Defined.

Lemma error_event_alone_is_not_fatal_witness :
  fst (deliver runCommand_listeners is_settled
         [ErrorEvent (mkError "spawn ENOENT")] Pending) = Pending
  /\ firstn 6 (r_trace (run host_pip_cannot_start))
     = firstn 6 (r_trace (run host_ok))
  /\ skipn 8 (r_trace (run host_pip_cannot_start)) = []
  /\ existsb is_setup_failed (r_trace (run host_pip_cannot_start)) = false
  /\ existsb is_exit (r_trace (run host_pip_cannot_start)) = false
  /\ r_outcome (run host_pip_cannot_start) = Crashed (mkError "spawn ENOENT").
Proof.
  destruct (error_event_alone_is_not_fatal host_pip_cannot_start
              (firstn 7 (r_trace (run host_pip_cannot_start)))
              (skipn 8 (r_trace (run host_pip_cannot_start)))
              (venvPythonPath host_pip_cannot_start)
              ["-m"; "pip"; "install"; "--upgrade"; "pip"])
    as (Hpending & _ & Hlast & Hquiet & Hnoexit & Hends).
  - vm_compute. reflexivity.
  - vm_compute. reflexivity.
  - split; [exact Hpending|].
    split; [vm_compute; reflexivity|].
    split; [exact Hlast|].
    split; [exact Hquiet|].
    split; [exact Hnoexit|].
    destruct Hends as [Hhung|(e & Hin & Hcrashed)].
    + vm_compute in Hhung. discriminate Hhung.
    + rewrite Hcrashed. vm_compute in Hin.
      destruct Hin as [Heq|[]]. injection Heq as <-. reflexivity.
Defined.

Lemma download_success_is_reported_witness :
  skipn 24 (r_trace (run host_chatty))
  = [ EConsole LLog
        [AStr "Downloading detection model... Models downloaded successfully!"];
      EConsole LLog [AStr "EasyOCR models setup complete!"];
      EUnlink (scriptPath host_chatty);
      setup_complete;
      EConsole LLog [AStr "To activate the virtual environment, run:"];
      activation_hint host_chatty ]
  /\ existsb is_warning (r_trace (run host_chatty)) = false
  /\ forallb install_ok (firstn 23 (r_trace (run host_chatty))) = true
  /\ r_outcome (run host_chatty) = Exited 0
  /\ r_disk (run host_chatty)
     = after_cleanup host_chatty
         (<[scriptPath host_chatty := downloadScript]> sample_env_disk).
Proof.
  destruct (download_success_is_reported host_chatty
              (firstn 23 (r_trace (run host_chatty)))
              (skipn 24 (r_trace (run host_chatty)))
              (venvPythonPath host_chatty) [scriptPath host_chatty]
              (<[scriptPath host_chatty := downloadScript]> sample_env_disk))
    as (_ & Hpost & Hquiet & Hinstalls & Hexit & Hdisk).
  - vm_compute. reflexivity.
  - split; [exact Hpost|].
    split; [exact Hquiet|].
    split; [exact Hinstalls|].
    split; [exact Hexit|exact Hdisk].
Defined.

Lemma venv_interpreter_is_inside_the_venv_witness :
  Path.is_under Win32 "C:\pkg\node-easyocr\venv"
    "C:\pkg\node-easyocr\venv\Scripts\python.exe" = true
  /\ Path.is_under Win32 "C:\pkg\node-easyocr"
       "C:\pkg\node-easyocr\venv\Scripts\python.exe" = true
  /\ Path.components Win32 "C:\pkg\node-easyocr\venv\Scripts\python.exe"
     = ["pkg"; "node-easyocr"] ++ ["venv"; "Scripts"; "python.exe"].
Proof.
  apply (venv_interpreter_is_inside_the_venv host_windows). reflexivity.
Defined.

(** The runs the added theorems speak about. *)
Example run_readonly :
  r_outcome (run host_readonly) = Exited 0
  /\ spawns (r_trace (run host_readonly))
     = firstn 5 (pipeline host_readonly sample_python)
  /\ r_disk (run host_readonly) = sample_env_disk.
Proof. repeat apply conj; vm_compute; reflexivity. Qed.

Example run_driver_cannot_start :
  r_outcome (run host_driver_cannot_start) = Exited 0
  /\ existsb is_warning (r_trace (run host_driver_cannot_start)) = true
  /\ existsb (is_closed Pipe) (r_trace (run host_driver_cannot_start)) = false
  /\ r_disk (run host_driver_cannot_start) = sample_env_disk.
Proof. repeat apply conj; vm_compute; reflexivity. Qed.

Example run_pip_cannot_start :
  spawns (r_trace (run host_pip_cannot_start))
  = firstn 2 (pipeline host_pip_cannot_start sample_python)
  /\ r_outcome (run host_pip_cannot_start) = Crashed (mkError "spawn ENOENT")
  /\ exit_status (r_outcome (run host_pip_cannot_start)) = Some 1%Z
  /\ forallb install_ok (r_trace (run host_pip_cannot_start)) = true
  /\ r_disk (run host_pip_cannot_start) = sample_env_disk.
Proof. repeat apply conj; vm_compute; reflexivity. Qed.

